(** * PixelwiseSoftmaxClassifier: a shallow embedding

    The development follows
    [chainercv/links/model/pixelwise_softmax_classifier.py]: a chain that
    wraps a segmentation predictor, computes a softmax cross-entropy loss,
    optionally evaluates the prediction, and reports named values to
    chainer's reporter.

    Layout:
    - [outcome]: how a Python call ends (a value, or an exception);
    - [Chainer]: the collaborators the class imports (predictor link, loss
      kernel, array module, evaluator), as an interface;
    - [Classifier], [World], the monad [M]: the instance's attributes, the
      objects a call can touch, and Python's statement sequencing with
      exceptions that keep the mutations made so far;
    - [__init__], [to_cpu], [to_gpu], [__call__]: the four methods;
    - [step], [reachable]: what can happen to a world after construction;
    - [call_under]: the call with the reporter's answer as an argument;
    - [Numpy]: an executable instance of the interface, a host without
      CUDA, on binary64 floats;
    - the lemmas on the paths through [__call__], then the properties of
      the class. *)

From Stdlib Require Import ZArith List String Bool Lia.
From Stdlib Require Import Floats.
From ExtLib Require Import Structures.Monad.
Import ListNotations MonadNotation.
Local Open Scope monad_scope.
Local Open Scope string_scope.
Local Open Scope list_scope.
Local Open Scope Z_scope.

Set Implicit Arguments.

(* ------------------------------------------------------------------ *)
(** * Outcomes of Python calls *)

(** The exceptions the model distinguishes.  [AttributeError] and
    [TypeError] are the two the class itself could provoke (reading an
    attribute that was never assigned, subscripting [None]); [Failure]
    stands for anything a collaborator raises. *)
Inductive exn : Type :=
| AttributeError (attr : string)
| TypeError (msg : string)
| Failure (msg : string).

Inductive outcome (A : Type) : Type :=
| Returns (a : A)
| Raises (e : exn).

Arguments Returns {A} a.
Arguments Raises {A} e.

Definition returned {A} (o : outcome A) : bool :=
  match o with Returns _ => true | Raises _ => false end.

(* ------------------------------------------------------------------ *)
(** * The imported collaborators *)

(** Element types; [dtype=np.float32] is the one the class names. *)
Inductive dtype : Type := float32 | float64.

(** [self.xp]: the array module of the device the link lives on. *)
Inductive array_module : Type := numpy | cupy.

(** Everything the module imports and does not define.  Each function may
    raise; those that cannot for any argument of their type are total. *)
Class Chainer : Type := {
  (** [chainer.Variable] carrying an array: [x], [t], [y]. *)
  variable : Type;
  (** The scalar variable [F.softmax_cross_entropy] returns. *)
  loss_variable : Type;
  ndarray : Type;
  (** What [xp.mean] returns. *)
  scalar : Type;
  (** What a caller may pass as [class_weight]. *)
  array_like : Type;
  (** The predictor link: its parameters and attributes. *)
  link : Type;
  device : Type;

  (** [v.data] *)
  data : variable -> ndarray;
  (** [predictor.n_class] *)
  link_n_class : link -> Z;
  (** [self.predictor(x)]; the predictor may update itself. *)
  link_call : link -> variable -> outcome variable * link;
  (** [chainer.Chain.to_cpu(self)] and [chainer.Chain.to_gpu(self, device)],
      acting on what the chain inherits: its array module and the
      registered child. *)
  chain_to_cpu : array_module -> link -> array_module * link;
  chain_to_gpu :
    array_module -> link -> option device ->
    outcome unit * (array_module * link);
  (** [F.softmax_cross_entropy(y, t, class_weight=, ignore_label=)] *)
  F_softmax_cross_entropy :
    variable -> variable -> option ndarray -> Z -> outcome loss_variable;
  (** [np.asarray(a, dtype=)] *)
  np_asarray : array_like -> dtype -> outcome ndarray;
  (** [cuda.to_cpu(a)], [cuda.to_gpu(a, device)] *)
  cuda_to_cpu : ndarray -> ndarray;
  cuda_to_gpu : ndarray -> option device -> outcome ndarray;
  (** [xp.argmax(a, axis=1)], [xp.mean(a)] *)
  xp_argmax_axis1 : array_module -> ndarray -> outcome ndarray;
  xp_mean : array_module -> ndarray -> scalar;
  (** [chainercv.evaluations.eval_semantic_segmentation(pred, gt, n_class)];
      its result is a 4-tuple. *)
  eval_semantic_segmentation :
    ndarray -> ndarray -> Z ->
    outcome (ndarray * ndarray * ndarray * ndarray)
}.

Section Classifier.

Context {E : Chainer}.

Definition accuracy_tuple : Type := (ndarray * ndarray * ndarray * ndarray)%type.

(** [a[i]] on the evaluator's tuple, for the four indices the class uses. *)
Inductive index4 : Type := I0 | I1 | I2 | I3.

Definition getitem (a : accuracy_tuple) (i : index4) : ndarray :=
  let '(a0, a1, a2, a3) := a in
  match i with I0 => a0 | I1 => a1 | I2 => a2 | I3 => a3 end.

(* ------------------------------------------------------------------ *)
(** * The instance and the world around it *)

(** The attributes of one [PixelwiseSoftmaxClassifier].  [self_id] is the
    object's identity (what the reporter receives as observer).  [xp] is
    inherited from [chainer.Link].  The last three attributes do not exist
    before the first call ([None]); [accuracy] can also hold Python's
    [None] ([Some None]). *)
Record Classifier : Type := {
  self_id : positive;
  xp : array_module;
  n_class : Z;
  ignore_label : Z;
  class_weight : option ndarray;
  compute_accuracy : bool;
  y : option variable;
  loss : option loss_variable;
  accuracy : option (option accuracy_tuple)
}.

Definition set_xp (v : array_module) (c : Classifier) : Classifier :=
  {| self_id := self_id c; xp := v; n_class := n_class c;
     ignore_label := ignore_label c; class_weight := class_weight c;
     compute_accuracy := compute_accuracy c;
     y := y c; loss := loss c; accuracy := accuracy c |}.

Definition set_class_weight (v : option ndarray) (c : Classifier) : Classifier :=
  {| self_id := self_id c; xp := xp c; n_class := n_class c;
     ignore_label := ignore_label c; class_weight := v;
     compute_accuracy := compute_accuracy c;
     y := y c; loss := loss c; accuracy := accuracy c |}.

Definition set_compute_accuracy (v : bool) (c : Classifier) : Classifier :=
  {| self_id := self_id c; xp := xp c; n_class := n_class c;
     ignore_label := ignore_label c; class_weight := class_weight c;
     compute_accuracy := v;
     y := y c; loss := loss c; accuracy := accuracy c |}.

Definition set_ignore_label (v : Z) (c : Classifier) : Classifier :=
  {| self_id := self_id c; xp := xp c; n_class := n_class c;
     ignore_label := v; class_weight := class_weight c;
     compute_accuracy := compute_accuracy c;
     y := y c; loss := loss c; accuracy := accuracy c |}.

Definition set_y (v : option variable) (c : Classifier) : Classifier :=
  {| self_id := self_id c; xp := xp c; n_class := n_class c;
     ignore_label := ignore_label c; class_weight := class_weight c;
     compute_accuracy := compute_accuracy c;
     y := v; loss := loss c; accuracy := accuracy c |}.

Definition set_loss (v : option loss_variable) (c : Classifier) : Classifier :=
  {| self_id := self_id c; xp := xp c; n_class := n_class c;
     ignore_label := ignore_label c; class_weight := class_weight c;
     compute_accuracy := compute_accuracy c;
     y := y c; loss := v; accuracy := accuracy c |}.

Definition set_accuracy (v : option (option accuracy_tuple)) (c : Classifier)
  : Classifier :=
  {| self_id := self_id c; xp := xp c; n_class := n_class c;
     ignore_label := ignore_label c; class_weight := class_weight c;
     compute_accuracy := compute_accuracy c;
     y := y c; loss := loss c; accuracy := v |}.

(** A reported value is the loss variable or a scalar from [xp.mean]. *)
Inductive value : Type :=
| of_loss (l : loss_variable)
| of_scalar (s : scalar).

(** One [reporter.report(values, observer)] call.  The dict is kept as the
    list of its items in insertion order. *)
Record report_call : Type := {
  values : list (string * value);
  observer : positive
}.

(** The objects a method can touch: the instance, the predictor it refers
    to (shared with whoever built it), and the reporter's record of calls,
    oldest first. *)
Record World : Type := {
  self : Classifier;
  predictor : link;
  reported : list report_call
}.

Definition with_self (c : Classifier) (w : World) : World :=
  {| self := c; predictor := predictor w; reported := reported w |}.

Definition with_predictor (p : link) (w : World) : World :=
  {| self := self w; predictor := p; reported := reported w |}.

Definition with_reported (r : list report_call) (w : World) : World :=
  {| self := self w; predictor := predictor w; reported := r |}.

(* ------------------------------------------------------------------ *)
(** * Statement sequencing *)

(** A method body: from a world to an outcome and the world it leaves.
    An exception stops the body; what was assigned before stays. *)
Definition M (A : Type) : Type := World -> outcome A * World.

#[export] Instance Monad_M : Monad M := {|
  ret := fun _ a w => (Returns a, w);
  bind := fun _ _ c k w =>
    match c w with
    | (Returns a, w') => k a w'
    | (Raises e, w') => (Raises e, w')
    end
|}.

(** [self.attr], for an attribute that always exists. *)
Definition getattr {A} (f : Classifier -> A) : M A :=
  fun w => (Returns (f (self w)), w).

(** [self.attr], for an attribute created by [__call__]. *)
Definition getattr_opt {A} (name : string) (f : Classifier -> option A) : M A :=
  fun w =>
    match f (self w) with
    | Some a => (Returns a, w)
    | None => (Raises (AttributeError name), w)
    end.

(** [self.attr = v] *)
Definition setattr (upd : Classifier -> Classifier) : M unit :=
  fun w => (Returns tt, with_self (upd (self w)) w).

(** A call to a collaborator that touches nothing in the world. *)
Definition call {A} (o : outcome A) : M A := fun w => (o, w).

(** [self.predictor(x)] *)
Definition call_predictor (x : variable) : M variable :=
  fun w =>
    let (r, p) := link_call (predictor w) x in (r, with_predictor p w).

(** [reporter.report(values, self)] where the reporter accepts the
    instance as observer; the world keeps the calls made.  For a reporter
    that refuses it, see [report_under]. *)
Definition report (vs : list (string * value)) : M unit :=
  fun w =>
    (Returns tt,
     with_reported
       (reported w ++ [{| values := vs; observer := self_id (self w) |}]) w).

(** [self.accuracy[i]] *)
Definition accuracy_item (i : index4) : M ndarray :=
  a <- getattr_opt "accuracy" accuracy ;;
  match a with
  | Some t4 => ret (getitem t4 i)
  | None => call (Raises (TypeError "'NoneType' object is not subscriptable"))
  end.

(* ------------------------------------------------------------------ *)
(** * The methods *)

(** [__init__(self, predictor, ignore_label=-1, class_weight=None,
    compute_accuracy=True)].  An argument the caller leaves out is [None]
    here; for [class_weight] that coincides with passing Python's [None].
    [self] is the fresh object's identity; a new link starts on [numpy]. *)
Definition __init__ (self : positive) (predictor : link)
    (ignore_label : option Z) (class_weight : option array_like)
    (compute_accuracy : option bool) : outcome Classifier :=
  let n := link_n_class predictor in
  let il := match ignore_label with Some v => v | None => -1 end in
  let ca := match compute_accuracy with Some b => b | None => true end in
  let build cw :=
    {| self_id := self; xp := numpy; n_class := n; ignore_label := il;
       class_weight := cw; compute_accuracy := ca;
       y := None; loss := None; accuracy := None |} in
  match class_weight with
  | Some a =>
      match np_asarray a float32 with
      | Returns arr => Returns (build (Some arr))
      | Raises e => Raises e
      end
  | None => Returns (build None)
  end.

(** The world right after construction around [p], with the reporter
    holding [r]. *)
Definition new_world (c : Classifier) (p : link) (r : list report_call) : World :=
  {| self := c; predictor := p; reported := r |}.

(** [super(PixelwiseSoftmaxClassifier, self).to_cpu()] *)
Definition super_to_cpu : M unit :=
  fun w =>
    let (m, p) := chain_to_cpu (xp (self w)) (predictor w) in
    (Returns tt, with_self (set_xp m (self w)) (with_predictor p w)).

(** [super(PixelwiseSoftmaxClassifier, self).to_gpu(device)] *)
Definition super_to_gpu (d : option device) : M unit :=
  fun w =>
    let '(r, (m, p)) := chain_to_gpu (xp (self w)) (predictor w) d in
    (r, with_self (set_xp m (self w)) (with_predictor p w)).

Definition to_cpu : M unit :=
  super_to_cpu ;;
  cw <- getattr class_weight ;;
  match cw with
  | Some a => setattr (set_class_weight (Some (cuda_to_cpu a)))
  | None => ret tt
  end.

Definition to_gpu (d : option device) : M unit :=
  super_to_gpu d ;;
  cw <- getattr class_weight ;;
  match cw with
  | Some a =>
      a' <- call (cuda_to_gpu a d) ;;
      setattr (set_class_weight (Some a'))
  | None => ret tt
  end.

(** The four keys of the accuracy report, in the order of the dict. *)
Definition accuracy_keys : list string :=
  ["pixel_accuracy"; "mean_accuracy"; "mean_iou"; "fw_iou"].

(** Lines 74-83: the body of [if self.compute_accuracy:]. *)
Definition accuracy_step (t : variable) : M unit :=
  m <- getattr xp ;;
  y0 <- getattr_opt "y" y ;;
  label <- call (xp_argmax_axis1 m (data y0)) ;;
  n <- getattr n_class ;;
  acc <- call (eval_semantic_segmentation label (data t) n) ;;
  setattr (set_accuracy (Some (Some acc))) ;;
  m0 <- getattr xp ;; a0 <- accuracy_item I0 ;;
  m1 <- getattr xp ;; a1 <- accuracy_item I1 ;;
  m2 <- getattr xp ;; a2 <- accuracy_item I2 ;;
  m3 <- getattr xp ;; a3 <- accuracy_item I3 ;;
  report [("pixel_accuracy", of_scalar (xp_mean m0 a0));
          ("mean_accuracy", of_scalar (xp_mean m1 a1));
          ("mean_iou", of_scalar (xp_mean m2 a2));
          ("fw_iou", of_scalar (xp_mean m3 a3))].

Definition __call__ (x t : variable) : M loss_variable :=
  y1 <- call_predictor x ;;
  setattr (set_y (Some y1)) ;;
  y0 <- getattr_opt "y" y ;;
  cw <- getattr class_weight ;;
  il <- getattr ignore_label ;;
  l <- call (F_softmax_cross_entropy y0 t cw il) ;;
  setattr (set_loss (Some l)) ;;
  l0 <- getattr_opt "loss" loss ;;
  report [("loss", of_loss l0)] ;;
  setattr (set_accuracy (Some None)) ;;
  ca <- getattr compute_accuracy ;;
  (if ca then accuracy_step t else ret tt) ;;
  getattr_opt "loss" loss.

(* ------------------------------------------------------------------ *)
(** * Observations on a world *)

(** The [reporter.report({'loss': self.loss}, self)] call of line 71. *)
Definition loss_report (c : Classifier) (l : loss_variable) : report_call :=
  {| values := [("loss", of_loss l)]; observer := self_id c |}.

(** The report of lines 78-83, for module [m] and evaluator result [acc]. *)
Definition accuracy_report (c : Classifier) (m : array_module)
    (acc : accuracy_tuple) : report_call :=
  {| values := [("pixel_accuracy", of_scalar (xp_mean m (getitem acc I0)));
                ("mean_accuracy", of_scalar (xp_mean m (getitem acc I1)));
                ("mean_iou", of_scalar (xp_mean m (getitem acc I2)));
                ("fw_iou", of_scalar (xp_mean m (getitem acc I3)))];
     observer := self_id c |}.

(** The world when line 73 has run. *)
Definition after_loss (w : World) (p : link) (y1 : variable)
    (l : loss_variable) : World :=
  {| self := set_accuracy (Some None)
               (set_loss (Some l) (set_y (Some y1) (self w)));
     predictor := p;
     reported := reported w ++ [loss_report (self w) l] |}.

(** The world when line 83 has run. *)
Definition after_accuracy (w : World) (p : link) (y1 : variable)
    (l : loss_variable) (acc : accuracy_tuple) : World :=
  {| self := set_accuracy (Some (Some acc))
               (set_loss (Some l) (set_y (Some y1) (self w)));
     predictor := p;
     reported := (reported w ++ [loss_report (self w) l])
                 ++ [accuracy_report (self w) (xp (self w)) acc] |}.

(** The attributes [__call__] never assigns, as one tuple. *)
Definition configuration (c : Classifier) :=
  (self_id c, xp c, n_class c, ignore_label c, class_weight c,
   compute_accuracy c).

(** The world with the [compute_accuracy] flag of the instance set to [b]. *)
Definition with_flag (b : bool) (w : World) : World :=
  with_self (set_compute_accuracy b (self w)) w.

(** The keys of a run of report calls, in order. *)
Definition keys (rs : list report_call) : list string :=
  flat_map (fun r => map fst (values r)) rs.

(** [values[k]] on the items of a dict. *)
Definition find_key (k : string) (vs : list (string * value)) : option value :=
  match find (fun kv => String.eqb (fst kv) k) vs with
  | Some kv => Some (snd kv)
  | None => None
  end.

(** The value the most recent report call gives for key [k]. *)
Definition last_reported (k : string) (w : World) : option value :=
  match rev (reported w) with
  | r :: _ => find_key k (values r)
  | [] => None
  end.

(* ------------------------------------------------------------------ *)
(** * What can happen to a world *)

(** Between construction and any later moment the instance is called,
    moved between devices, and the owner of the predictor may change the
    predictor (for instance assign [predictor.n_class]). *)
Inductive step : World -> World -> Prop :=
| step_call x t w : step w (snd (__call__ x t w))
| step_to_cpu w : step w (snd (to_cpu w))
| step_to_gpu d w : step w (snd (to_gpu d w))
| step_predictor p w : step w (with_predictor p w).

Inductive reachable (w0 : World) : World -> Prop :=
| reach_here : reachable w0 w0
| reach_step w w' : reachable w0 w -> step w w' -> reachable w0 w'.

(** The world with the two options of the loss, [ignore_label] and
    [class_weight], of the instance replaced. *)
Definition with_loss_options (il : Z) (cw : option ndarray) (w : World)
  : World :=
  with_self (set_class_weight cw (set_ignore_label il (self w))) w.

(** The world with the attributes [__call__] assigns replaced, and the
    reporter holding [r]: the same instance at another moment of its use. *)
Definition at_another_moment (yv : option variable)
    (lv : option loss_variable) (av : option (option accuracy_tuple))
    (r : list report_call) (w : World) : World :=
  with_reported r
    (with_self (set_accuracy av (set_loss lv (set_y yv (self w)))) w).

(** Every report call of [rs] names the instance [c] as observer. *)
Definition observed_by (c : Classifier) (rs : list report_call) : Prop :=
  Forall (fun r => observer r = self_id c) rs.

(* ------------------------------------------------------------------ *)
(** * The reporter's answer *)

(** [reporter.report(values, observer)] raises [KeyError] when a reporter
    is in scope with which the observer is not registered; otherwise it
    returns.  [report], [accuracy_step] and [__call__] above are lines
    52-84 where the reporter accepts the instance.  The definitions below
    are the same lines with the reporter's answer to this instance as an
    argument; with the answer [true] they are the ones above. *)
Definition unregistered_observer : exn :=
  Failure "KeyError: Given observer is not registered to the reporter.".

Definition report_under (accepted : bool) (vs : list (string * value))
  : M unit :=
  if accepted then report vs else call (Raises unregistered_observer).

Definition accuracy_step_under (accepted : bool) (t : variable) : M unit :=
  m <- getattr xp ;;
  y0 <- getattr_opt "y" y ;;
  label <- call (xp_argmax_axis1 m (data y0)) ;;
  n <- getattr n_class ;;
  acc <- call (eval_semantic_segmentation label (data t) n) ;;
  setattr (set_accuracy (Some (Some acc))) ;;
  m0 <- getattr xp ;; a0 <- accuracy_item I0 ;;
  m1 <- getattr xp ;; a1 <- accuracy_item I1 ;;
  m2 <- getattr xp ;; a2 <- accuracy_item I2 ;;
  m3 <- getattr xp ;; a3 <- accuracy_item I3 ;;
  report_under accepted
    [("pixel_accuracy", of_scalar (xp_mean m0 a0));
     ("mean_accuracy", of_scalar (xp_mean m1 a1));
     ("mean_iou", of_scalar (xp_mean m2 a2));
     ("fw_iou", of_scalar (xp_mean m3 a3))].

Definition call_under (accepted : bool) (x t : variable) : M loss_variable :=
  y1 <- call_predictor x ;;
  setattr (set_y (Some y1)) ;;
  y0 <- getattr_opt "y" y ;;
  cw <- getattr class_weight ;;
  il <- getattr ignore_label ;;
  l <- call (F_softmax_cross_entropy y0 t cw il) ;;
  setattr (set_loss (Some l)) ;;
  l0 <- getattr_opt "loss" loss ;;
  report_under accepted [("loss", of_loss l0)] ;;
  setattr (set_accuracy (Some None)) ;;
  ca <- getattr compute_accuracy ;;
  (if ca then accuracy_step_under accepted t else ret tt) ;;
  getattr_opt "loss" loss.

End Classifier.

(* ------------------------------------------------------------------ *)
(** * An executable instance: a host without CUDA *)

(** Arrays are [numpy] arrays of binary64 floats or of integers.  A batch
    of score images has shape (B, C, H, W) and a batch of label images
    shape (B, H, W); the image plane is kept flattened into one pixel
    axis, which the arg-max over axis 1, the mean and the evaluator (it
    flattens each image itself) do not see.  A value stands for an array
    when it is rectangular; the operations raise on the others.  The loss
    kernel needs [exp] and [log] and is kept symbolic: a loss is
    identified by the arguments the kernel was applied to.  Without CUDA
    every transfer to a device raises and [self.xp] stays [numpy]. *)
Module Numpy.

Inductive array : Type :=
| Ints (l : list Z)
| Floats (l : list float)
| Labels (imgs : list (list Z))
| Scores (imgs : list (list (list float))).

Record Tensor : Type := { array_of : array }.

Record Loss : Type := {
  scores : array;
  labels : array;
  weights : option array;
  ignored : Z
}.

(** A predictor small enough to run: it adds a per-class bias to the
    scores it is given.  [classes] is its [n_class] attribute. *)
Record Link : Type := { classes : Z; bias : list float }.

Definition no_cuda : exn := Failure "CUDA environment is not correctly set up".

(** Rounding of a binary64 value to binary32 (24-bit significand, maximal
    exponent 128), to nearest even; the result is again held as binary64. *)
Definition to_float32 (f : float) : float :=
  match Prim2SF f with
  | S754_finite s m e => SF2Prim (binary_round 24 128 s m e)
  | _ => f
  end.

(** The binary64 value nearest to an integer. *)
Definition float_of_Z (z : Z) : float :=
  SF2Prim (binary_normalize prec emax z 0 false).

(** ** Shapes *)

Definition same_width {A} (n : nat) (rows : list (list A)) : bool :=
  forallb (fun r => Nat.eqb (List.length r) n) rows.

(** The length of axis 1 of a list of rows (0 when there is no row). *)
Definition width {A} (rows : list (list A)) : nat :=
  match rows with r :: _ => List.length r | [] => 0%nat end.

(** (C, P) of a batch of score images, when it is rectangular. *)
Definition scores_shape (imgs : list (list (list float)))
  : option (nat * nat) :=
  let c := width imgs in
  let p := match imgs with img :: _ => width img | [] => 0%nat end in
  if forallb (fun img => Nat.eqb (List.length img) c && same_width p img)%bool
             imgs
  then Some (c, p) else None.

(** ** The predictor *)

(** One image plus the bias: [bias[c]] is added to every score of class
    [c]. *)
Definition add_bias (b : list float) (img : list (list float))
  : list (list float) :=
  map (fun rb => map (fun v => PrimFloat.add v (snd rb)) (fst rb))
      (combine img b).

Definition forward (p : Link) (x : Tensor) : outcome Tensor * Link :=
  match array_of x with
  | Scores imgs =>
      match scores_shape imgs with
      | Some (c, _) =>
          if Nat.eqb c (List.length (bias p))
          then (Returns {| array_of := Scores (map (add_bias (bias p)) imgs) |},
                p)
          else (Raises (Failure "shape mismatch"), p)
      | None => (Raises (Failure "not an array"), p)
      end
  | _ => (Raises (Failure "expected a batch of score images"), p)
  end.

(** ** The loss kernel *)

(** What the kernel checks before it computes; the value itself is not
    computed.  Scores and labels must agree in batch size and image size,
    there must be a class, no label may name a class beyond the last, and
    class weights must be a float vector of length C or 1. *)
Definition softmax_cross_entropy (y t : Tensor) (cw : option array)
    (il : Z) : outcome Loss :=
  match array_of y, array_of t with
  | Scores imgs, Labels ls =>
      match scores_shape imgs with
      | Some (c, p) =>
          let weights_fit :=
            match cw with
            | None => true
            | Some (Floats ws) =>
                (Nat.eqb (List.length ws) c || Nat.eqb (List.length ws) 1)%bool
            | Some _ => false
            end in
          if (Nat.ltb 0 c
              && Nat.eqb (List.length imgs) (List.length ls)
              && same_width p ls
              && forallb (forallb (fun l => l <? Z.of_nat c)) ls
              && weights_fit)%bool
          then Returns {| scores := array_of y; labels := array_of t;
                          weights := cw; ignored := il |}
          else Raises (Failure "invalid type or shape")
      | None => Raises (Failure "invalid type or shape")
      end
  | _, _ => Raises (Failure "invalid type or shape")
  end.

Definition asarray (a : list float) (d : dtype) : outcome array :=
  match d with
  | float32 => Returns (Floats (map to_float32 a))
  | float64 => Returns (Floats a)
  end.

(** ** The array module *)

(** Index of the first maximum of a row; a NaN counts as the maximum. *)
Fixpoint argmax_from (best : float) (besti i : Z) (l : list float) : Z :=
  match l with
  | [] => besti
  | v :: l' =>
      if PrimFloat.is_nan best then besti
      else if (PrimFloat.is_nan v || PrimFloat.ltb best v)%bool
           then argmax_from v i (i + 1) l'
           else argmax_from best besti (i + 1) l'
  end.

Definition argmax_row (r : list float) : Z :=
  match r with
  | [] => 0
  | v :: l => argmax_from v 0 1 l
  end.

Fixpoint argmax_int_from (best besti i : Z) (l : list Z) : Z :=
  match l with
  | [] => besti
  | v :: l' =>
      if best <? v then argmax_int_from v i (i + 1) l'
      else argmax_int_from best besti (i + 1) l'
  end.

Definition argmax_int_row (r : list Z) : Z :=
  match r with
  | [] => 0
  | v :: l => argmax_int_from v 0 1 l
  end.

(** The scores of pixel [j] of an image, one per class. *)
Definition pixel (j : nat) (img : list (list float)) : list float :=
  map (fun row => nth j row 0%float) img.

Definition empty_sequence : exn :=
  Failure "attempt to get argmax of an empty sequence".

Definition argmax_axis1 (m : array_module) (a : array) : outcome array :=
  match m with
  | cupy => Raises no_cuda
  | numpy =>
      match a with
      | Scores imgs =>
          match scores_shape imgs with
          | Some (O, _) => Raises empty_sequence
          | Some (_, p) =>
              Returns
                (Labels
                   (map (fun img =>
                           map (fun j => argmax_row (pixel j img)) (seq 0 p))
                        imgs))
          | None => Raises (Failure "not an array")
          end
      | Labels ls =>
          if same_width (width ls) ls
          then match width ls with
               | O => Raises empty_sequence
               | _ => Returns (Ints (map argmax_int_row ls))
               end
          else Raises (Failure "not an array")
      | _ => Raises (Failure "axis 1 is out of bounds")
      end
  end.

(** Sum and mean of a float list, added from left to right, as [numpy]
    adds fewer than eight entries.  From eight entries on [numpy] adds
    pairwise, which can change the last bit of the result, not whether it
    is NaN.  The mean of no entries is [0/0]. *)
Definition fsum (l : list float) : float :=
  fold_left PrimFloat.add l 0%float.

Definition fmean (l : list float) : float :=
  PrimFloat.div (fsum l) (float_of_Z (Z.of_nat (List.length l))).

Definition mean (m : array_module) (a : array) : float :=
  match a with
  | Floats l => fmean l
  | Ints l => fmean (map float_of_Z l)
  | Labels ls => fmean (map float_of_Z (List.concat ls))
  | Scores imgs => fmean (List.concat (List.concat imgs))
  end.

(** The mean of the entries that are not NaN ([numpy.nanmean]). *)
Definition fnanmean (l : list float) : float :=
  fmean (filter (fun v => negb (PrimFloat.is_nan v)) l).

(** ** The evaluator *)

(** The pixels of an image that count: those whose ground truth is a
    class, [0 <= g < n].  Each is sent to the cell [n * g + p] of the
    flattened confusion matrix. *)
Definition cells (n : Z) (pred gt : list Z) : list Z :=
  map (fun gp => n * fst gp + snd gp)
      (filter (fun gp => (0 <=? fst gp) && (fst gp <? n))%bool
              (combine gt pred)).

(** Number of counted pixels with ground truth [i] predicted as [j]. *)
Definition hist (n : Z) (cs : list Z) (i j : Z) : Z :=
  Z.of_nat (List.length (filter (fun c => c =? n * i + j) cs)).

Definition class_ids (n : Z) : list Z :=
  map Z.of_nat (seq 0 (Z.to_nat n)).

Definition zsum (l : list Z) : Z := fold_left Z.add l 0.

Definition row_total (n : Z) (cs : list Z) (i : Z) : Z :=
  zsum (map (fun j => hist n cs i j) (class_ids n)).

Definition col_total (n : Z) (cs : list Z) (j : Z) : Z :=
  zsum (map (fun i => hist n cs i j) (class_ids n)).

Definition ratio (a b : Z) : float :=
  PrimFloat.div (float_of_Z a) (float_of_Z b).

Definition class_iou (n : Z) (cs : list Z) (i : Z) : float :=
  ratio (hist n cs i i)
        (row_total n cs i + col_total n cs i - hist n cs i i).

(** The four scores of one image. *)
Definition image_scores (n : Z) (cs : list Z)
  : float * float * float * float :=
  let ids := class_ids n in
  let all := Z.of_nat (List.length cs) in
  let pixel_accuracy := ratio (zsum (map (fun i => hist n cs i i) ids)) all in
  let mean_accuracy :=
    fnanmean (map (fun i => ratio (hist n cs i i) (row_total n cs i)) ids) in
  let mean_iou := fnanmean (map (class_iou n cs) ids) in
  let fw_iou :=
    fsum (map (fun i => PrimFloat.mul (ratio (row_total n cs i) all)
                                      (class_iou n cs i))
              (filter (fun i => 0 <? row_total n cs i) ids)) in
  (pixel_accuracy, mean_accuracy, mean_iou, fw_iou).

(** A batch of label images: a 2-d integer array, or a 1-d one whose
    entries are images of one pixel. *)
Definition label_images (a : array) : option (list (list Z)) :=
  match a with
  | Labels ls => Some ls
  | Ints l => Some (map (fun v => [v]) l)
  | _ => None
  end.

(** Modelled from the spec: [chainercv.evaluations.eval_semantic_segmentation]
    is not among the sources.  It takes predicted labels, ground-truth
    labels and a class count, and returns four arrays: pixel accuracy,
    class-averaged accuracy, class-averaged IoU (the overlap ratio
    between the predicted and the ground-truth pixel sets of a class) and
    frequency-weighted IoU (per-class IoU weighted by each class's pixel
    frequency).  Each array has one entry per image of the batch.  The
    undefined ([0/0]) entries of the classes absent from an image are the
    evaluator's to deal with: it averages over the classes that are
    defined, and gives classes of frequency zero no weight.  It receives
    no ignore label; a pixel counts when its ground truth is one of the
    [n] classes.  An image without any such pixel has nothing to average:
    its first three entries are NaN. *)
Definition evaluate (pred gt : array) (n : Z)
  : outcome (array * array * array * array) :=
  match label_images pred, label_images gt with
  | Some ps, Some gs =>
      if (Nat.eqb (List.length ps) (List.length gs)
          && forallb (fun pg => Nat.eqb (List.length (fst pg))
                                        (List.length (snd pg)))
                     (combine ps gs))%bool
      then
        let css := map (fun pg => cells n (fst pg) (snd pg)) (combine ps gs) in
        if (0 <=? n)
           && forallb (forallb (fun c => (0 <=? c) && (c <? n * n))) css
        then
          let rs := map (image_scores n) css in
          Returns (Floats (map (fun r => fst (fst (fst r))) rs),
                   Floats (map (fun r => snd (fst (fst r))) rs),
                   Floats (map (fun r => snd (fst r)) rs),
                   Floats (map snd rs))
        else Raises (Failure "labels do not fit the class count")
      else Raises (Failure "shape mismatch")
  | _, _ => Raises (Failure "labels must be integer arrays")
  end.

#[export] Instance host : Chainer := {|
  variable := Tensor;
  loss_variable := Loss;
  ndarray := array;
  scalar := float;
  array_like := list float;
  link := Link;
  device := Z;
  data := array_of;
  link_n_class := classes;
  link_call := forward;
  chain_to_cpu := fun _ p => (numpy, p);
  chain_to_gpu := fun m p _ => (Raises no_cuda, (m, p));
  F_softmax_cross_entropy := softmax_cross_entropy;
  np_asarray := asarray;
  cuda_to_cpu := fun a => a;
  cuda_to_gpu := fun _ _ => Raises no_cuda;
  xp_argmax_axis1 := argmax_axis1;
  xp_mean := mean;
  eval_semantic_segmentation := evaluate
|}.

(** ** Readings of the specification, for comparison with the code *)


(** The label pairs of one image that remain when the pixels whose ground
    truth is the ignore label [il] are excluded. *)
Definition kept (il : Z) (pred gt : list Z) : list Z * list Z :=
  let ps := filter (fun gp => negb (fst gp =? il)) (combine gt pred) in
  (map snd ps, map fst ps).

(** The evaluator applied to the pixels that are not ignored. *)
Definition evaluate_excluding (il : Z) (pred gt : array) (n : Z)
  : outcome (array * array * array * array) :=
  match label_images pred, label_images gt with
  | Some ps, Some gs =>
      let ks := map (fun pg => kept il (fst pg) (snd pg)) (combine ps gs) in
      if (Nat.eqb (List.length ps) (List.length gs)
          && forallb (fun pg => Nat.eqb (List.length (fst pg))
                                        (List.length (snd pg)))
                     (combine ps gs))%bool
      then evaluate (Labels (map fst ks)) (Labels (map snd ks)) n
      else Raises (Failure "shape mismatch")
  | _, _ => Raises (Failure "labels must be integer arrays")
  end.


(** C2 as worded: the accuracy a call stores is the evaluation of the
    pixels whose ground truth is not the configured ignore label. *)
Definition accuracy_excludes_ignored (w : @World host) (x t : Tensor) : Prop :=
  forall y1 p label acc,
    link_call (predictor w) x = (Returns y1, p) ->
    xp_argmax_axis1 (xp (self w)) (data y1) = Returns label ->
    evaluate_excluding (ignore_label (self w)) label (data t)
      (n_class (self w)) = Returns acc ->
    accuracy (self (snd (__call__ x t w))) = Some (Some acc).

(** ** Sample objects *)

Definition tensor (a : array) : Tensor := {| array_of := a |}.

(** A two-class and a three-class predictor without bias. *)
Definition net2 : Link := {| classes := 2; bias := [0%float; 0%float] |}.
Definition net3 : Link :=
  {| classes := 3; bias := [0%float; 0%float; 0%float] |}.

(** One image of two pixels (shape (1, 2, 1, 2)): the scores of class 0
    are [0.25, 0.125], those of class 1 are [0.75, 0.875], so both pixels
    score highest for class 1.  The ground truth (shape (1, 1, 2)) labels
    the first pixel 0 and the second 1. *)
Definition x2 : Tensor :=
  tensor (Scores [[[0.25%float; 0.125%float]; [0.75%float; 0.875%float]]]).
Definition t2 : Tensor := tensor (Labels [[0; 1]]).

(** One image of two pixels over three classes, both predicted as
    labelled; class 2 is absent from the image. *)
Definition x3 : Tensor :=
  tensor (Scores [[[0.75%float; 0.25%float]; [0.25%float; 0.75%float];
                   [0%float; 0%float]]]).
Definition t3 : Tensor := tensor (Labels [[0; 1]]).

(** A batch of two images of two pixels over two classes.  Both pixels of
    the first image are predicted as labelled; the second image carries
    no annotation: both of its pixels have the default ignore label -1. *)
Definition x_pair : Tensor :=
  tensor (Scores [[[0.75%float; 0.25%float]; [0.25%float; 0.75%float]];
                  [[0.75%float; 0.25%float]; [0.25%float; 0.75%float]]]).
Definition t_pair : Tensor := tensor (Labels [[0; 1]; [-1; -1]]).

(** The classifier [__init__] builds, or a placeholder if it raised. *)
Definition built (o : outcome (@Classifier host)) : @Classifier host :=
  match o with
  | Returns c => c
  | Raises _ =>
      {| self_id := 1%positive; xp := numpy; n_class := 0;
         ignore_label := 0; class_weight := None; compute_accuracy := false;
         y := None; loss := None; accuracy := None |}
  end.

(** [PixelwiseSoftmaxClassifier(net2)], nothing reported yet. *)
Definition w2 : @World host :=
  new_world (built (__init__ 1%positive net2 None None None)) net2 [].

(** [PixelwiseSoftmaxClassifier(net2, ignore_label=0)] *)
Definition w2_ignore0 : @World host :=
  new_world (built (__init__ 1%positive net2 (Some 0) None None)) net2 [].

(** [PixelwiseSoftmaxClassifier(net3)] *)
Definition w3 : @World host :=
  new_world (built (__init__ 1%positive net3 None None None)) net3 [].

(** What the call on [x2], [t2] computes on its way in [w2]: the scores
    (the bias is zero), the loss, the predicted labels, the evaluation. *)
Definition loss2 : Loss :=
  {| scores := array_of x2; labels := array_of t2; weights := None;
     ignored := -1 |}.
Definition label2 : array := Labels [[1; 1]].
Definition acc2 : array * array * array * array :=
  (Floats [0.5%float], Floats [0.5%float],
   Floats [0.25%float], Floats [0.25%float]).

(** The evaluation of [x3], [t3] for three classes: the absent class is
    left out of the averages. *)
Definition acc3 : array * array * array * array :=
  (Floats [1%float], Floats [1%float], Floats [1%float], Floats [1%float]).


(** The loss of [x_pair], [t_pair] under the default options. *)
Definition loss_pair : Loss :=
  {| scores := array_of x_pair; labels := array_of t_pair; weights := None;
     ignored := -1 |}.

(** The evaluation of [x2], [t2] with the pixels labelled 0 left out. *)
Definition acc2_without_0 : array * array * array * array :=
  (Floats [1%float], Floats [1%float], Floats [1%float], Floats [1%float]).

(** [w2] after the owner of the predictor assigned [predictor.n_class = 5]. *)
Definition net2_relabelled : Link :=
  {| classes := 5; bias := [0%float; 0%float] |}.
Definition w2_relabelled : @World host := with_predictor net2_relabelled w2.

(** [w2] after one call, which evaluated accuracy, and then
    [compute_accuracy = False]. *)
Definition w2_then_quiet : @World host :=
  with_flag false (snd (__call__ x2 t2 w2)).

(** A ground truth with one pixel too few for [x2]. *)
Definition t_short : Tensor := tensor (Labels [[0]]).

(** Class weights as a caller writes them; the first is the binary64
    value nearest to one tenth. *)
Definition weights2 : list float := [0x1.999999999999ap-4%float; 2%float].

(** The same weights in binary32: the first now has a 24-bit significand. *)
Definition weights2_float32 : array := Floats [0x1.99999ap-4%float; 2%float].

(** [PixelwiseSoftmaxClassifier(net2, class_weight=weights2)], and the
    loss of [x2], [t2] under these weights. *)
Definition w2_weighted : @World host :=
  new_world (built (__init__ 1%positive net2 None (Some weights2) None))
            net2 [].
Definition loss2_weighted : Loss :=
  {| scores := array_of x2; labels := array_of t2;
     weights := Some weights2_float32; ignored := -1 |}.

(** The loss of [x2], [t2] when label 0 is the one to ignore. *)
Definition loss2_ignore0 : Loss :=
  {| scores := array_of x2; labels := array_of t2; weights := None;
     ignored := 0 |}.

(** [w2] after [predictor.n_class = 5] and then one call. *)
Definition w2_later : @World host := snd (__call__ x2 t2 w2_relabelled).

(** A host with CUDA whose device memory is exhausted: links without
    parameters, such as [Link], move to the device, arrays do not. *)
Definition out_of_memory : exn := Failure "out of memory".

Definition crowded : Chainer := {|
  variable := Tensor;
  loss_variable := Loss;
  ndarray := array;
  scalar := float;
  array_like := list float;
  link := Link;
  device := Z;
  data := array_of;
  link_n_class := classes;
  link_call := forward;
  chain_to_cpu := fun _ p => (numpy, p);
  chain_to_gpu := fun _ p _ => (Returns tt, (cupy, p));
  F_softmax_cross_entropy := softmax_cross_entropy;
  np_asarray := asarray;
  cuda_to_cpu := fun a => a;
  cuda_to_gpu := fun _ _ => Raises out_of_memory;
  xp_argmax_axis1 := argmax_axis1;
  xp_mean := mean;
  eval_semantic_segmentation := evaluate
|}.

(** The classifier [__init__] builds on a given host, or a placeholder
    if it raised. *)
Definition built_with (E : Chainer) (o : outcome (@Classifier E))
  : @Classifier E :=
  match o with
  | Returns c => c
  | Raises _ =>
      @Build_Classifier E 1%positive numpy 0 0 None false None None None
  end.

(** [PixelwiseSoftmaxClassifier(net2, class_weight=weights2)] on that
    host. *)
Definition w2_crowded : @World crowded :=
  @new_world crowded
    (@built_with crowded
       (@__init__ crowded 1%positive net2 None (Some weights2) None))
    net2 [].

End Numpy.

(* ------------------------------------------------------------------ *)
(** * The paths through [__call__] *)

Ltac unfold_call :=
  cbv [__call__ accuracy_step accuracy_item call_predictor getattr
       getattr_opt setattr call report bind ret Monad_M
       with_self with_predictor with_reported].

Ltac unfold_transfer :=
  cbv [to_cpu to_gpu super_to_cpu super_to_gpu getattr setattr call
       bind ret Monad_M with_self with_predictor with_reported].

Ltac step_with H := rewrite H; cbn.

(** Case analysis on whatever collaborator call the goal is stuck on. *)
Ltac walk :=
  repeat (cbn;
          match goal with
          | |- context [match ?s with _ => _ end] =>
              lazymatch s with
              | context [match _ with _ => _ end] => fail
              | _ => destruct s eqn:?
              end
          end).

Section Paths.

Context {E : Chainer}.

Implicit Types (w : World) (x t : variable) (p : link)
  (l : loss_variable) (label : ndarray) (acc : accuracy_tuple) (e : exn).

Lemma call_predictor_raises w x t e p :
  link_call (predictor w) x = (Raises e, p) ->
  __call__ x t w = (Raises e, with_predictor p w).
Proof. intros H. unfold_call. step_with H. reflexivity. Qed.

Lemma call_loss_raises w x t y1 p e :
  link_call (predictor w) x = (Returns y1, p) ->
  F_softmax_cross_entropy y1 t (class_weight (self w)) (ignore_label (self w))
    = Raises e ->
  __call__ x t w
  = (Raises e, with_self (set_y (Some y1) (self w)) (with_predictor p w)).
Proof.
  intros Hp Hl. unfold_call. step_with Hp. step_with Hl. reflexivity.
Qed.

Lemma call_without_accuracy w x t y1 p l :
  link_call (predictor w) x = (Returns y1, p) ->
  F_softmax_cross_entropy y1 t (class_weight (self w)) (ignore_label (self w))
    = Returns l ->
  compute_accuracy (self w) = false ->
  __call__ x t w = (Returns l, after_loss w p y1 l).
Proof.
  intros Hp Hl Hc. unfold_call. step_with Hp. step_with Hl. step_with Hc.
  reflexivity.
Qed.

Lemma call_argmax_raises w x t y1 p l e :
  link_call (predictor w) x = (Returns y1, p) ->
  F_softmax_cross_entropy y1 t (class_weight (self w)) (ignore_label (self w))
    = Returns l ->
  compute_accuracy (self w) = true ->
  xp_argmax_axis1 (xp (self w)) (data y1) = Raises e ->
  __call__ x t w = (Raises e, after_loss w p y1 l).
Proof.
  intros Hp Hl Hc Ha. unfold_call. step_with Hp. step_with Hl. step_with Hc.
  step_with Ha. reflexivity.
Qed.

Lemma call_evaluator_raises w x t y1 p l label e :
  link_call (predictor w) x = (Returns y1, p) ->
  F_softmax_cross_entropy y1 t (class_weight (self w)) (ignore_label (self w))
    = Returns l ->
  compute_accuracy (self w) = true ->
  xp_argmax_axis1 (xp (self w)) (data y1) = Returns label ->
  eval_semantic_segmentation label (data t) (n_class (self w)) = Raises e ->
  __call__ x t w = (Raises e, after_loss w p y1 l).
Proof.
  intros Hp Hl Hc Ha He. unfold_call. step_with Hp. step_with Hl.
  step_with Hc. step_with Ha. step_with He. reflexivity.
Qed.

Lemma call_with_accuracy w x t y1 p l label acc :
  link_call (predictor w) x = (Returns y1, p) ->
  F_softmax_cross_entropy y1 t (class_weight (self w)) (ignore_label (self w))
    = Returns l ->
  compute_accuracy (self w) = true ->
  xp_argmax_axis1 (xp (self w)) (data y1) = Returns label ->
  eval_semantic_segmentation label (data t) (n_class (self w)) = Returns acc ->
  __call__ x t w = (Returns l, after_accuracy w p y1 l acc).
Proof.
  intros Hp Hl Hc Ha He. unfold_call. step_with Hp. step_with Hl.
  step_with Hc. step_with Ha. step_with He. destruct acc as [[[a0 a1] a2] a3].
  reflexivity.
Qed.

(** Every call ends on one of four kinds of world: the predictor raised;
    the loss kernel raised; line 73 was reached and nothing after it
    assigned or reported; or the accuracy step ran to its end. *)
Lemma call_cases w x t :
  (exists e p, __call__ x t w = (Raises e, with_predictor p w))
  \/ (exists e y1 p,
        __call__ x t w
        = (Raises e,
           with_self (set_y (Some y1) (self w)) (with_predictor p w)))
  \/ (exists r y1 p l,
        __call__ x t w = (r, after_loss w p y1 l)
        /\ (r = Returns l /\ compute_accuracy (self w) = false
            \/ (exists e, r = Raises e) /\ compute_accuracy (self w) = true))
  \/ (exists y1 p l acc,
        __call__ x t w = (Returns l, after_accuracy w p y1 l acc)
        /\ compute_accuracy (self w) = true).
Proof.
  destruct (link_call (predictor w) x) as [[y1 | e] p] eqn:Hp.
  2:{ left. exists e, p. now apply call_predictor_raises. }
  destruct (F_softmax_cross_entropy y1 t (class_weight (self w))
              (ignore_label (self w))) as [l | e] eqn:Hl.
  2:{ right; left. exists e, y1, p. now apply call_loss_raises. }
  destruct (compute_accuracy (self w)) eqn:Hc.
  2:{ right; right; left. exists (Returns l), y1, p, l.
      split; [now apply call_without_accuracy | now left]. }
  destruct (xp_argmax_axis1 (xp (self w)) (data y1)) as [label | e] eqn:Ha.
  2:{ right; right; left. exists (Raises e), y1, p, l.
      split; [now apply call_argmax_raises | right; eauto]. }
  destruct (eval_semantic_segmentation label (data t) (n_class (self w)))
    as [acc | e] eqn:He.
  - right; right; right. exists y1, p, l, acc.
    split; [now apply call_with_accuracy with (label := label) | reflexivity].
  - right; right; left. exists (Raises e), y1, p, l.
    split; [now apply call_evaluator_raises with (label := label) |].
    right; eauto.
Qed.

(** The keys of the two kinds of report. *)
Lemma keys_loss_report (c : Classifier) l : keys [loss_report c l] = ["loss"].
Proof. reflexivity. Qed.

Lemma keys_accuracy_report (c : Classifier) m acc :
  keys [accuracy_report c m acc] = accuracy_keys.
Proof. reflexivity. Qed.

Lemma loss_is_no_accuracy_key : ~ In "loss" accuracy_keys.
Proof. cbn. intuition discriminate. Qed.

End Paths.

(* ------------------------------------------------------------------ *)
(** * Frame properties *)

Section Frame.

Context {E : Chainer}.

Lemma call_keeps_configuration (w : World) x t :
  configuration (self (snd (__call__ x t w))) = configuration (self w).
Proof. unfold_call. walk; reflexivity. Qed.

Lemma to_cpu_keeps_n_class (w : World) :
  n_class (self (snd (to_cpu w))) = n_class (self w).
Proof. unfold_transfer. walk; reflexivity. Qed.

Lemma to_gpu_keeps_n_class d (w : World) :
  n_class (self (snd (to_gpu d w))) = n_class (self w).
Proof. unfold_transfer. walk; reflexivity. Qed.

(** No step changes the stored class count. *)
Lemma step_keeps_n_class (w w' : World) :
  step w w' -> n_class (self w') = n_class (self w).
Proof.
  destruct 1.
  - exact (f_equal (fun c => snd (fst (fst (fst c))))
                   (call_keeps_configuration w x t)).
  - apply to_cpu_keeps_n_class.
  - apply to_gpu_keeps_n_class.
  - reflexivity.
Qed.

Lemma reachable_keeps_n_class (w0 w : World) :
  reachable w0 w -> n_class (self w) = n_class (self w0).
Proof.
  induction 1 as [| w w' _ IH Hs]; [reflexivity |].
  rewrite (step_keeps_n_class Hs). exact IH.
Qed.

Lemma init_reads_n_class sid p il cw ca (c : Classifier) :
  __init__ sid p il cw ca = Returns c -> n_class c = link_n_class p.
Proof.
  unfold __init__. destruct cw as [a |].
  - destruct (np_asarray a float32); [| discriminate].
    intros H. injection H as <-. reflexivity.
  - intros H. injection H as <-. reflexivity.
Qed.

(** The accuracy path does not look at the ignore label: changing it
    commutes with the accuracy step. *)
Lemma accuracy_step_ignores_ignore_label (w : World) t il :
  accuracy_step t (with_self (set_ignore_label il (self w)) w)
  = (fst (accuracy_step t w),
     with_self (set_ignore_label il (self (snd (accuracy_step t w))))
               (snd (accuracy_step t w))).
Proof.
  unfold_call. cbn.
  destruct (y (self w)); [| reflexivity]. cbn.
  destruct (xp_argmax_axis1 (xp (self w)) (data v)); [| reflexivity]. cbn.
  destruct (eval_semantic_segmentation a (data t) (n_class (self w)))
    as [[[[a0 a1] a2] a3] |]; reflexivity.
Qed.

End Frame.

(* ------------------------------------------------------------------ *)
(** * Properties of the class *)

Section Properties.

Context {E : Chainer}.

(** C4.  When the predictor returns [y1] and the loss kernel, applied to
    [y1], [t], the stored class weights and the stored ignore label,
    returns [l]: the call stores [y1] and [l], reports [l] under "loss"
    with the instance as observer before anything else it reports (what
    follows holds accuracy keys only), and returns [l] -- unless accuracy
    is enabled and the arg-max or the evaluator raises, in which case that
    exception leaves the call after the loss was reported. *)
Theorem call_returns_and_reports_loss (w : World) x t y1 p l :
  link_call (predictor w) x = (Returns y1, p) ->
  F_softmax_cross_entropy y1 t (class_weight (self w)) (ignore_label (self w))
    = Returns l ->
  let r := fst (__call__ x t w) in
  let w' := snd (__call__ x t w) in
  (r = Returns l
   \/ compute_accuracy (self w) = true
      /\ exists e, r = Raises e
         /\ (xp_argmax_axis1 (xp (self w)) (data y1) = Raises e
             \/ exists label,
                 xp_argmax_axis1 (xp (self w)) (data y1) = Returns label
                 /\ eval_semantic_segmentation label (data t)
                      (n_class (self w)) = Raises e))
  /\ (exists later,
        reported w'
        = reported w
          ++ {| values := [("loss", of_loss l)];
                observer := self_id (self w) |} :: later
        /\ forall k, In k (keys later) -> In k accuracy_keys)
  /\ y (self w') = Some y1
  /\ loss (self w') = Some l.
Proof.
  intros Hp Hl r w'. subst r w'.
  destruct (compute_accuracy (self w)) eqn:Hc.
  - destruct (xp_argmax_axis1 (xp (self w)) (data y1)) as [label | e] eqn:Ha.
    + destruct (eval_semantic_segmentation label (data t) (n_class (self w)))
        as [acc | e] eqn:He.
      * rewrite (call_with_accuracy w x t Hp Hl Hc Ha He). cbn.
        split; [now left |]. split; [| now split].
        exists [accuracy_report (self w) (xp (self w)) acc].
        split; [now rewrite <- app_assoc |].
        intros k Hk. exact Hk.
      * rewrite (call_evaluator_raises w x t Hp Hl Hc Ha He). cbn.
        split; [right; split; [reflexivity |]; exists e; eauto |].
        split; [| now split].
        exists []. split; [reflexivity | intros k []].
    + rewrite (call_argmax_raises w x t Hp Hl Hc Ha). cbn.
      split; [right; split; [reflexivity |]; exists e; eauto |].
      split; [| now split].
      exists []. split; [reflexivity | intros k []].
  - rewrite (call_without_accuracy w x t Hp Hl Hc). cbn.
    split; [now left |]. split; [| now split].
    exists []. split; [reflexivity | intros k []].
Qed.


(** C3.  Take any world, inputs and configuration, and run the call once
    with [compute_accuracy] false and once with it true.  The run with the
    flag off reports no accuracy key.  What the run with the flag on
    reports is what the other reports, followed by reports without a
    "loss" key, so the reported loss is the same; the stored loss is the
    same; whenever the run with the flag on returns a loss the other
    returns that loss, and whenever the run with the flag off raises the
    other raises the same exception. *)
Theorem compute_accuracy_does_not_touch_loss (w : World) x t :
  let off := __call__ x t (with_flag false w) in
  let on := __call__ x t (with_flag true w) in
  (exists news,
      reported (snd off) = reported w ++ news
      /\ forall k, In k (keys news) -> ~ In k accuracy_keys)
  /\ (exists extra,
        reported (snd on) = reported (snd off) ++ extra
        /\ ~ In "loss" (keys extra))
  /\ loss (self (snd off)) = loss (self (snd on))
  /\ (forall l, fst on = Returns l -> fst off = Returns l)
  /\ (forall e, fst off = Raises e -> fst on = Raises e).
Proof.
  intros off on. subst off on.
  destruct (link_call (predictor w) x) as [[y1 | e] p] eqn:Hp.
  2:{ rewrite (@call_predictor_raises _ (with_flag false w) x t e p Hp).
      rewrite (@call_predictor_raises _ (with_flag true w) x t e p Hp). cbn.
      split; [exists []; split; [now rewrite app_nil_r | intros k []] |].
      split; [exists []; split; [now rewrite app_nil_r | intros []] |].
      split; [reflexivity |]. split; [discriminate | trivial]. }
  destruct (F_softmax_cross_entropy y1 t (class_weight (self w))
              (ignore_label (self w))) as [l | e] eqn:Hl.
  2:{ rewrite (@call_loss_raises _ (with_flag false w) x t y1 p e Hp Hl).
      rewrite (@call_loss_raises _ (with_flag true w) x t y1 p e Hp Hl). cbn.
      split; [exists []; split; [now rewrite app_nil_r | intros k []] |].
      split; [exists []; split; [now rewrite app_nil_r | intros []] |].
      split; [reflexivity |]. split; [discriminate | trivial]. }
  rewrite (@call_without_accuracy _ (with_flag false w) x t y1 p l Hp Hl eq_refl).
  assert (Hoff : exists news,
             reported (after_loss (with_flag false w) p y1 l)
             = reported w ++ news
             /\ forall k, In k (keys news) -> ~ In k accuracy_keys).
  { exists [loss_report (self w) l]. split; [reflexivity |].
    intros k [<- | []]. exact loss_is_no_accuracy_key. }
  destruct (xp_argmax_axis1 (xp (self w)) (data y1)) as [label | e] eqn:Ha.
  2:{ rewrite (@call_argmax_raises _ (with_flag true w) x t y1 p l e
                 Hp Hl eq_refl Ha). cbn.
      split; [exact Hoff |].
      split; [exists []; split; [now rewrite app_nil_r | intros []] |].
      split; [reflexivity |]. split; discriminate. }
  destruct (eval_semantic_segmentation label (data t) (n_class (self w)))
    as [acc | e] eqn:He.
  2:{ rewrite (@call_evaluator_raises _ (with_flag true w) x t y1 p l label e
                 Hp Hl eq_refl Ha He). cbn.
      split; [exact Hoff |].
      split; [exists []; split; [now rewrite app_nil_r | intros []] |].
      split; [reflexivity |]. split; discriminate. }
  rewrite (@call_with_accuracy _ (with_flag true w) x t y1 p l label acc
             Hp Hl eq_refl Ha He). cbn.
  split; [exact Hoff |].
  split.
  - exists [accuracy_report (self w) (xp (self w)) acc].
    split; [reflexivity |]. cbn. intuition discriminate.
  - split; [reflexivity |]. split; [trivial | discriminate].
Qed.

(** C9.  Whatever the outcome of a call, [n_class], [ignore_label],
    [class_weight] and [compute_accuracy] keep their values, and the
    instance after the call is the instance before it with at most [y],
    [loss] and [accuracy] assigned. *)
Theorem call_assigns_only_transient_attributes (w : World) x t :
  let c := self w in
  let c' := self (snd (__call__ x t w)) in
  n_class c' = n_class c
  /\ ignore_label c' = ignore_label c
  /\ class_weight c' = class_weight c
  /\ compute_accuracy c' = compute_accuracy c
  /\ c' = set_y (y c') (set_loss (loss c') (set_accuracy (accuracy c') c)).
Proof.
  cbv zeta.
  destruct (call_cases w x t)
    as [(e & p & ->) | [(e & y1 & p & ->) | [(r & y1 & p & l & -> & _)
       | (y1 & p & l & acc & -> & _)]]];
    cbn; (repeat split; try reflexivity);
    destruct w as [c p0 r0]; destruct c; reflexivity.
Qed.

(** C10.  A call made with [compute_accuracy] false that returns leaves
    [accuracy] holding [None], whatever it held before.  The only calls
    made with the flag off that leave it otherwise are those the predictor
    or the loss kernel ends with an exception before line 73; they leave
    [accuracy] as it was. *)
Theorem accuracy_is_none_after_call_without_accuracy (w : World) x t :
  compute_accuracy (self w) = false ->
  let r := fst (__call__ x t w) in
  let c' := self (snd (__call__ x t w)) in
  (forall l, r = Returns l -> accuracy c' = Some None)
  /\ (accuracy c' = Some None
      \/ exists e, r = Raises e /\ accuracy c' = accuracy (self w)).
Proof.
  intros Hc. cbv zeta.
  destruct (call_cases w x t)
    as [(e & p & ->) | [(e & y1 & p & ->) | [(r & y1 & p & l' & -> & _)
       | (y1 & p & l' & acc & -> & Hc')]]]; cbn.
  - split; [discriminate | right; eauto].
  - split; [discriminate | right; eauto].
  - split; [reflexivity | now left].
  - congruence.
Qed.

(** C6.  When [class_weight] is [None], it is still [None] after
    [to_cpu] and after [to_gpu], for any device and whether or not the
    transfer of the predictor raises. *)
Theorem transfers_keep_absent_class_weight (w : World) :
  class_weight (self w) = None ->
  class_weight (self (snd (to_cpu w))) = None
  /\ forall d, class_weight (self (snd (to_gpu d w))) = None.
Proof.
  intros H. split; [| intros d]; unfold_transfer.
  - destruct (chain_to_cpu (xp (self w)) (predictor w)) as [m p]; cbn.
    rewrite H. exact H.
  - destruct (chain_to_gpu (xp (self w)) (predictor w) d)
      as [[u | e] [m p]]; cbn; rewrite ?H; cbn;
      first [exact H | reflexivity].
Qed.

(** C5.  Construction with a class-weight sequence that [np.asarray]
    converts to the float32 array [arr] returns an instance whose
    [class_weight] is [arr]; construction without class weights returns
    an instance whose [class_weight] is [None]. *)
Theorem init_stores_float32_class_weight sid p il ca a arr :
  np_asarray a float32 = Returns arr ->
  (exists c : Classifier,
      __init__ sid p il (Some a) ca = Returns c
      /\ class_weight c = Some arr)
  /\ (exists c : Classifier,
        __init__ sid p il None ca = Returns c /\ class_weight c = None).
Proof.
  intros H. unfold __init__. rewrite H.
  split; eexists; split; reflexivity.
Qed.

(** C8.  Construction with only the predictor given returns an instance
    whose [ignore_label] is -1 and whose [compute_accuracy] is true; and
    -1 is what a call hands to the loss kernel as the label to ignore:
    the loss such an instance stores is the kernel's result for ignore
    label -1. *)
Theorem init_defaults sid (p : link) :
  exists c : Classifier,
    __init__ sid p None None None = Returns c
    /\ ignore_label c = -1
    /\ compute_accuracy c = true
    /\ forall r x t y1 p' l,
        link_call p x = (Returns y1, p') ->
        F_softmax_cross_entropy y1 t None (-1) = Returns l ->
        loss (self (snd (__call__ x t (new_world c p r)))) = Some l.
Proof.
  eexists. split; [reflexivity |]. split; [reflexivity |].
  split; [reflexivity |].
  intros r x t y1 p' l Hp Hl. unfold_call. cbn.
  rewrite Hp. cbn. rewrite Hl. walk; reflexivity.
Qed.

(** C7.  The class count is read from the predictor by [__init__] and by
    nothing else: in every world reachable from construction -- through
    calls, device transfers, and changes the owner makes to the predictor,
    its [n_class] included -- the stored [n_class] is the predictor's
    class count at construction, and that is the count a call passes to
    the evaluator. *)
Theorem n_class_is_fixed_at_construction sid p0 il cw ca (c : Classifier) r0
    (w : World) x t y1 p l label acc :
  __init__ sid p0 il cw ca = Returns c ->
  reachable (new_world c p0 r0) w ->
  compute_accuracy (self w) = true ->
  link_call (predictor w) x = (Returns y1, p) ->
  F_softmax_cross_entropy y1 t (class_weight (self w)) (ignore_label (self w))
    = Returns l ->
  xp_argmax_axis1 (xp (self w)) (data y1) = Returns label ->
  eval_semantic_segmentation label (data t) (link_n_class p0) = Returns acc ->
  n_class (self w) = link_n_class p0
  /\ accuracy (self (snd (__call__ x t w))) = Some (Some acc).
Proof.
  intros Hi Hr Hc Hp Hl Ha He.
  assert (Hn : n_class (self w) = link_n_class p0).
  { rewrite (reachable_keeps_n_class Hr). cbn.
    exact (init_reads_n_class _ _ _ _ _ Hi). }
  split; [exact Hn |].
  rewrite <- Hn in He.
  rewrite (call_with_accuracy w x t Hp Hl Hc Ha He). reflexivity.
Qed.

End Properties.

(* ------------------------------------------------------------------ *)
(** * The mean of the [Numpy] instance and NaN *)

Module NumpyFacts.

Import Numpy.

Lemma is_nan_eq (v : float) : PrimFloat.is_nan v = true -> v = nan.
Proof.
  intros H. apply Prim2SF_inj. unfold Prim2SF at 1. rewrite H. reflexivity.
Qed.

Lemma add_nan_l (v : float) : PrimFloat.add nan v = nan.
Proof. apply Prim2SF_inj. rewrite add_spec. reflexivity. Qed.

Lemma add_nan_r (v : float) : PrimFloat.add v nan = nan.
Proof.
  apply Prim2SF_inj. rewrite add_spec.
  destruct (Prim2SF v); reflexivity.
Qed.

Lemma div_nan_l (v : float) : PrimFloat.div nan v = nan.
Proof. apply Prim2SF_inj. rewrite div_spec. reflexivity. Qed.

(** Once the running sum is NaN it stays NaN. *)
Lemma fold_add_nan (l : list float) : fold_left PrimFloat.add l nan = nan.
Proof.
  induction l as [| v l IH]; [reflexivity |].
  cbn. rewrite add_nan_l. exact IH.
Qed.

Lemma fold_add_reaches_nan (l : list float) (s : float) :
  existsb PrimFloat.is_nan l = true -> fold_left PrimFloat.add l s = nan.
Proof.
  revert s. induction l as [| v l IH]; intros s H; [discriminate |].
  cbn in *. destruct (PrimFloat.is_nan v) eqn:Hv.
  - rewrite (is_nan_eq v Hv), add_nan_r. apply fold_add_nan.
  - apply IH. exact H.
Qed.

(** [xp.mean] does not skip NaN entries: one NaN entry makes the mean
    NaN. *)
Lemma mean_propagates_nan (m : array_module) (l : list float) :
  existsb PrimFloat.is_nan l = true -> mean m (Floats l) = nan.
Proof.
  intros H. cbn. unfold fmean, fsum.
  rewrite (fold_add_reaches_nan l _ H). apply div_nan_l.
Qed.


End NumpyFacts.

(* ------------------------------------------------------------------ *)
(** * The properties at concrete inputs *)

Import Numpy.

(** A ground truth of the wrong size makes the loss kernel raise:
    nothing is reported, and [y] is already assigned. *)
Example loss_kernel_can_raise :
  returned (fst (__call__ x2 t_short w2)) = false
  /\ reported (snd (__call__ x2 t_short w2)) = []
  /\ y (self (snd (__call__ x2 t_short w2))) = Some x2
  /\ loss (self (snd (__call__ x2 t_short w2))) = None.
Proof. repeat split; reflexivity. Qed.

(** A class absent from an image is dealt with by the evaluator: with
    three classes and an image labelled 0 and 1 only, every entry of the
    evaluation is 1 and so is every mean reported. *)
Example absent_class_is_left_to_the_evaluator :
  accuracy (self (snd (__call__ x3 t3 w3))) = Some (Some acc3)
  /\ last_reported "mean_accuracy" (snd (__call__ x3 t3 w3))
     = Some (of_scalar 1%float)
  /\ last_reported "mean_iou" (snd (__call__ x3 t3 w3))
     = Some (of_scalar 1%float).
Proof. repeat split; reflexivity. Qed.

(** [call_returns_and_reports_loss] on [w2]: the loss is returned, stored,
    and reported first. *)
Lemma call_returns_and_reports_loss_witness :
  link_call (predictor w2) x2 = (Returns x2, net2)
  /\ F_softmax_cross_entropy x2 t2 (class_weight (self w2))
       (ignore_label (self w2)) = Returns loss2
  /\ (fst (__call__ x2 t2 w2) = Returns loss2
      \/ compute_accuracy (self w2) = true
         /\ exists e, fst (__call__ x2 t2 w2) = Raises e
            /\ (xp_argmax_axis1 (xp (self w2)) (data x2) = Raises e
                \/ exists label,
                    xp_argmax_axis1 (xp (self w2)) (data x2) = Returns label
                    /\ eval_semantic_segmentation label (data t2)
                         (n_class (self w2)) = Raises e))
  /\ (exists later,
        reported (snd (__call__ x2 t2 w2))
        = reported w2
          ++ {| values := [("loss", of_loss loss2)];
                observer := self_id (self w2) |} :: later
        /\ forall k, In k (keys later) -> In k accuracy_keys)
  /\ y (self (snd (__call__ x2 t2 w2))) = Some x2
  /\ loss (self (snd (__call__ x2 t2 w2))) = Some loss2.
Proof.
  split; [reflexivity |]. split; [reflexivity |].
  exact (@call_returns_and_reports_loss host w2 x2 t2 x2 net2 loss2
           eq_refl eq_refl).
Defined.



(** C2, evaluated where the code departs from it.  The instance is built
    with [ignore_label=0]; the input is one image of two pixels, of which
    the first carries label 0 and is predicted as class 1.  The loss kernel is handed ignore label 0,
    but the evaluator gets the labels as they are: the accuracy stored is
    the one of the instance built with the default ignore label, the pixel
    is counted as an error and the pixel accuracy reported is 0.5, where
    the evaluation of the pixels that are not ignored gives 1. *)
Theorem accuracy_counts_pixels_carrying_ignore_label :
  ignore_label (self w2_ignore0) = 0
  /\ data t2 = Labels [[0; 1]]
  /\ fst (__call__ x2 t2 w2_ignore0)
     = Returns {| scores := array_of x2; labels := array_of t2;
                  weights := None; ignored := 0 |}
  /\ accuracy (self (snd (__call__ x2 t2 w2_ignore0))) = Some (Some acc2)
  /\ accuracy (self (snd (__call__ x2 t2 w2))) = Some (Some acc2)
  /\ last_reported "pixel_accuracy" (snd (__call__ x2 t2 w2_ignore0))
     = Some (of_scalar 0.5%float)
  /\ evaluate_excluding 0 label2 (data t2) 2 = Returns acc2_without_0
  /\ mean numpy (getitem acc2_without_0 I0) = 1%float
  /\ ~ accuracy_excludes_ignored w2_ignore0 x2 t2.
Proof.
  do 8 (split; [reflexivity |]).
  intros H.
  specialize (H x2 net2 label2 acc2_without_0 eq_refl eq_refl eq_refl).
  assert (H0 : getitem acc2 I0 = getitem acc2_without_0 I0).
  { exact (f_equal (fun o : option (option (@accuracy_tuple host)) =>
                      match o with
                      | Some (Some a) => getitem a I0
                      | _ => Floats []
                      end) H). }
  assert (H1 : 0.5%float = 1%float).
  { exact (f_equal (fun a => mean numpy a) H0). }
  apply (f_equal (fun v => PrimFloat.ltb v 1%float)) in H1.
  discriminate H1.
Qed.

(** [accuracy_is_none_after_call_without_accuracy] on a world whose
    earlier call stored an accuracy. *)
Lemma accuracy_is_none_after_call_without_accuracy_witness :
  accuracy (self w2_then_quiet) = Some (Some acc2)
  /\ compute_accuracy (self w2_then_quiet) = false
  /\ fst (__call__ x2 t2 w2_then_quiet) = Returns loss2
  /\ accuracy (self (snd (__call__ x2 t2 w2_then_quiet))) = Some None.
Proof.
  split; [reflexivity |]. split; [reflexivity |]. split; [reflexivity |].
  exact (proj1 (@accuracy_is_none_after_call_without_accuracy host
                  w2_then_quiet x2 t2 eq_refl) loss2 eq_refl).
Defined.

(** [transfers_keep_absent_class_weight] on [w2]. *)
Lemma transfers_keep_absent_class_weight_witness :
  class_weight (self w2) = None
  /\ class_weight (self (snd (to_cpu w2))) = None
  /\ forall d, class_weight (self (snd (to_gpu d w2))) = None.
Proof.
  split; [reflexivity |].
  exact (@transfers_keep_absent_class_weight host w2 eq_refl).
Defined.

(** [init_stores_float32_class_weight] on the weights [0.1; 2]: 0.1 is
    stored as its nearest binary32 value. *)
Lemma init_stores_float32_class_weight_witness :
  np_asarray weights2 float32
  = Returns weights2_float32
  /\ (exists c : Classifier,
         __init__ 1%positive net2 None (Some weights2) None = Returns c
         /\ class_weight c = Some weights2_float32)
  /\ (exists c : Classifier,
         __init__ 1%positive net2 None None None = Returns c
         /\ class_weight c = None).
Proof.
  split; [reflexivity |].
  exact (@init_stores_float32_class_weight host 1%positive net2 None None
           weights2 weights2_float32 eq_refl).
Defined.

(** [n_class_is_fixed_at_construction] after [predictor.n_class = 5]: the
    evaluator is still called for 2 classes. *)
Lemma n_class_is_fixed_at_construction_witness :
  link_n_class (predictor w2_relabelled) = 5
  /\ reachable w2 w2_relabelled
  /\ n_class (self w2_relabelled) = 2
  /\ accuracy (self (snd (__call__ x2 t2 w2_relabelled))) = Some (Some acc2).
Proof.
  split; [reflexivity |].
  assert (Hr : reachable w2 w2_relabelled).
  { apply reach_step with (w := w2); [apply reach_here |].
    exact (step_predictor net2_relabelled w2). }
  split; [exact Hr |].
  exact (@n_class_is_fixed_at_construction host 1%positive net2 None None
           None (self w2) [] w2_relabelled x2 t2 x2 net2_relabelled loss2
           label2 acc2 eq_refl Hr eq_refl eq_refl eq_refl eq_refl eq_refl).
Defined.

(* ------------------------------------------------------------------ *)
(** * Further properties of the methods *)

Section Further.

Context {E : Chainer}.

(** [__call__] as one case analysis on what its collaborators do. *)
Lemma call_equation (w : World) x t :
  __call__ x t w
  = match link_call (predictor w) x with
    | (Raises e, p) => (Raises e, with_predictor p w)
    | (Returns y1, p) =>
        match F_softmax_cross_entropy y1 t (class_weight (self w))
                (ignore_label (self w)) with
        | Raises e =>
            (Raises e,
             with_self (set_y (Some y1) (self w)) (with_predictor p w))
        | Returns l =>
            if compute_accuracy (self w) then
              match xp_argmax_axis1 (xp (self w)) (data y1) with
              | Raises e => (Raises e, after_loss w p y1 l)
              | Returns label =>
                  match eval_semantic_segmentation label (data t)
                          (n_class (self w)) with
                  | Raises e => (Raises e, after_loss w p y1 l)
                  | Returns acc => (Returns l, after_accuracy w p y1 l acc)
                  end
              end
            else (Returns l, after_loss w p y1 l)
        end
    end.
Proof.
  destruct (link_call (predictor w) x) as [[y1 | e] p] eqn:Hp;
    [| now apply call_predictor_raises].
  destruct (F_softmax_cross_entropy y1 t (class_weight (self w))
              (ignore_label (self w))) as [l | e] eqn:Hl;
    [| now apply call_loss_raises].
  destruct (compute_accuracy (self w)) eqn:Hc;
    [| now apply call_without_accuracy].
  destruct (xp_argmax_axis1 (xp (self w)) (data y1)) as [label | e] eqn:Ha;
    [| now apply call_argmax_raises].
  destruct (eval_semantic_segmentation label (data t) (n_class (self w)))
    as [acc | e] eqn:He.
  - now apply call_with_accuracy with (label := label).
  - now apply call_evaluator_raises with (label := label).
Qed.

(** [to_cpu] and [to_gpu] as case analyses. *)
Lemma to_cpu_equation (w : World) :
  to_cpu w
  = let (m, p) := chain_to_cpu (xp (self w)) (predictor w) in
    (Returns tt,
     {| self := match class_weight (self w) with
                | Some a =>
                    set_class_weight (Some (cuda_to_cpu a))
                      (set_xp m (self w))
                | None => set_xp m (self w)
                end;
        predictor := p; reported := reported w |}).
Proof.
  unfold_transfer.
  destruct (chain_to_cpu (xp (self w)) (predictor w)) as [m p]. cbn.
  destruct (class_weight (self w)); reflexivity.
Qed.

Lemma to_gpu_equation d (w : World) :
  to_gpu d w
  = let '(r, (m, p)) := chain_to_gpu (xp (self w)) (predictor w) d in
    let moved :=
      {| self := set_xp m (self w); predictor := p;
         reported := reported w |} in
    match r, class_weight (self w) with
    | Raises e, _ => (Raises e, moved)
    | Returns _, None => (Returns tt, moved)
    | Returns _, Some a =>
        match cuda_to_gpu a d with
        | Raises e => (Raises e, moved)
        | Returns a' =>
            (Returns tt,
             with_self (set_class_weight (Some a') (set_xp m (self w))) moved)
        end
    end.
Proof.
  unfold_transfer.
  destruct (chain_to_gpu (xp (self w)) (predictor w) d) as [[u | e] [m p]];
    cbn; [| reflexivity].
  destruct (class_weight (self w)) as [a |]; cbn; [| reflexivity].
  destruct (cuda_to_gpu a d); reflexivity.
Qed.

(** Case analysis on the collaborators of one call, after
    [call_equation]. *)
Ltac call_paths w x t :=
  rewrite (call_equation w x t);
  destruct (link_call (predictor w) x) as [[?y1 | ?e] ?p] eqn:?Hp;
  [ destruct (F_softmax_cross_entropy _ t (class_weight (self w))
                (ignore_label (self w))) as [?l | ?e] eqn:?Hl;
    [ destruct (compute_accuracy (self w)) eqn:?Hc;
      [ destruct (xp_argmax_axis1 (xp (self w)) _) as [?label | ?e] eqn:?Ha;
        [ destruct (eval_semantic_segmentation _ (data t) (n_class (self w)))
            as [?acc | ?e] eqn:?He | ]
      | ]
    | ]
  | ]; cbn.

(** The lines 52-84 under a reporter that accepts the instance are
    [__call__]. *)
Lemma call_under_accepted (w : World) x t :
  call_under true x t w = __call__ x t w.
Proof. reflexivity. Qed.

(** Under a reporter that refuses the instance the call ends at line 71,
    with the loss stored and nothing reported, unless the predictor or
    the loss kernel ended it before. *)
Lemma call_under_refused (w : World) x t :
  call_under false x t w
  = match link_call (predictor w) x with
    | (Raises e, p) => (Raises e, with_predictor p w)
    | (Returns y1, p) =>
        match F_softmax_cross_entropy y1 t (class_weight (self w))
                (ignore_label (self w)) with
        | Raises e =>
            (Raises e,
             with_self (set_y (Some y1) (self w)) (with_predictor p w))
        | Returns l =>
            (Raises unregistered_observer,
             with_self (set_loss (Some l) (set_y (Some y1) (self w)))
                       (with_predictor p w))
        end
    end.
Proof.
  cbv [call_under report_under call_predictor getattr getattr_opt setattr
       call bind ret Monad_M with_self with_predictor with_reported].
  destruct (link_call (predictor w) x) as [[y1 | e] p]; cbn;
    [| reflexivity].
  destruct (F_softmax_cross_entropy y1 t (class_weight (self w))
              (ignore_label (self w))); reflexivity.
Qed.

(** X1.  An exception that leaves a call is one a collaborator raised:
    the predictor, the loss kernel, the reporter (when it refuses the
    instance as observer, at line 71), or, with accuracy enabled, the
    arg-max or the evaluator.  The class's own reads of [self.y],
    [self.loss] and [self.accuracy[i]] never fail, also on an instance
    that was never called. *)
Theorem call_raises_only_what_collaborators_raise (accepted : bool)
    (w : World) x t e :
  fst (call_under accepted x t w) = Raises e ->
  (exists p, link_call (predictor w) x = (Raises e, p))
  \/ exists y1 p,
      link_call (predictor w) x = (Returns y1, p)
      /\ (F_softmax_cross_entropy y1 t (class_weight (self w))
            (ignore_label (self w)) = Raises e
          \/ exists l,
              F_softmax_cross_entropy y1 t (class_weight (self w))
                (ignore_label (self w)) = Returns l
              /\ (accepted = false /\ e = unregistered_observer
                  \/ accepted = true
                     /\ compute_accuracy (self w) = true
                     /\ (xp_argmax_axis1 (xp (self w)) (data y1) = Raises e
                         \/ exists label,
                             xp_argmax_axis1 (xp (self w)) (data y1)
                             = Returns label
                             /\ eval_semantic_segmentation label (data t)
                                  (n_class (self w)) = Raises e))).
Proof.
  destruct accepted.
  - rewrite call_under_accepted.
    call_paths w x t; intros H; try discriminate H;
      injection H as <-.
    + right. exists y1, p. split; [reflexivity |]. right. exists l.
      split; [exact Hl |]. right. split; [reflexivity |].
      split; [reflexivity |]. right. exists label. split; assumption.
    + right. exists y1, p. split; [reflexivity |]. right. exists l.
      split; [exact Hl |]. right. split; [reflexivity |].
      split; [reflexivity |]. now left.
    + right. exists y1, p. split; [reflexivity |]. now left.
    + left. now exists p.
  - rewrite call_under_refused.
    destruct (link_call (predictor w) x) as [[y1 | e0] p] eqn:Hp; cbn.
    + destruct (F_softmax_cross_entropy y1 t (class_weight (self w))
                  (ignore_label (self w))) as [l | e0] eqn:Hl; cbn;
        intros H; injection H as <-.
      * right. exists y1, p. split; [reflexivity |]. right. exists l.
        split; [exact Hl |]. left. now split.
      * right. exists y1, p. split; [reflexivity |]. left. exact Hl.
    + intros H. injection H as <-. left. now exists p.
Qed.

(** X2.  When a call returns [l]: the predictor returned some [y1] and
    the loss kernel returned [l] for it; afterwards [self.y] is [y1] and
    [self.loss] is the value returned; [self.accuracy] is [None] when
    [compute_accuracy] is not set, and when it is set it is what the
    evaluator returned for the arg-max of [y1.data], [t.data] and the
    stored class count. *)
Theorem call_return_leaves_results (w : World) x t l :
  fst (__call__ x t w) = Returns l ->
  let w' := snd (__call__ x t w) in
  loss (self w') = Some l
  /\ exists y1,
      link_call (predictor w) x = (Returns y1, predictor w')
      /\ y (self w') = Some y1
      /\ F_softmax_cross_entropy y1 t (class_weight (self w))
           (ignore_label (self w)) = Returns l
      /\ (if compute_accuracy (self w)
          then exists label acc,
              xp_argmax_axis1 (xp (self w)) (data y1) = Returns label
              /\ eval_semantic_segmentation label (data t)
                   (n_class (self w)) = Returns acc
              /\ accuracy (self w') = Some (Some acc)
          else accuracy (self w') = Some None).
Proof.
  cbv zeta. call_paths w x t; intros H; try discriminate H;
    injection H as <-.
  - split; [reflexivity |]. exists y1.
    do 3 (split; [first [reflexivity | assumption] |]).
    exists label, acc. now repeat split.
  - split; [reflexivity |]. exists y1.
    do 3 (split; [first [reflexivity | assumption] |]). reflexivity.
Qed.

(** X3.  A call only appends to what was reported, at most two report
    calls, each naming the instance as observer.  The keys appended are
    none (the predictor or the loss kernel raised), "loss" alone, or
    "loss" followed by the four accuracy keys; a call that returns
    appended the latter when [compute_accuracy] is set and "loss" alone
    when it is not. *)
Theorem call_appends_loss_then_accuracy (w : World) x t :
  exists news,
    reported (snd (__call__ x t w)) = reported w ++ news
    /\ observed_by (self w) news
    /\ (List.length news <= 2)%nat
    /\ (keys news = [] \/ keys news = ["loss"]
        \/ keys news = "loss" :: accuracy_keys)
    /\ (forall l, fst (__call__ x t w) = Returns l ->
        keys news = if compute_accuracy (self w)
                    then "loss" :: accuracy_keys else ["loss"]).
Proof.
  call_paths w x t.
  - exists [loss_report (self w) l;
            accuracy_report (self w) (xp (self w)) acc].
    split; [now rewrite <- app_assoc |].
    split; [repeat constructor |]. split; [cbn; lia |].
    split; [now right; right | reflexivity].
  - exists [loss_report (self w) l]. split; [reflexivity |].
    split; [repeat constructor |]. split; [cbn; lia |].
    split; [now right; left | discriminate].
  - exists [loss_report (self w) l]. split; [reflexivity |].
    split; [repeat constructor |]. split; [cbn; lia |].
    split; [now right; left | discriminate].
  - exists [loss_report (self w) l]. split; [reflexivity |].
    split; [repeat constructor |]. split; [cbn; lia |].
    split; [now right; left | reflexivity].
  - exists []. split; [now rewrite app_nil_r |].
    split; [constructor |]. split; [cbn; lia |].
    split; [now left | discriminate].
  - exists []. split; [now rewrite app_nil_r |].
    split; [constructor |]. split; [cbn; lia |].
    split; [now left | discriminate].
Qed.

(** X4.  What a call does is independent of what earlier calls left in
    [y], [loss] and [accuracy] and of what was reported before: from the
    same instance at another moment, the call has the same outcome, leaves
    the predictor in the same state, appends the same reports, and, when
    it returns, leaves the same attributes.  Results are overwritten, not
    accumulated. *)
Theorem call_forgets_earlier_results (w : World) yv lv av r x t :
  let a := __call__ x t w in
  let b := __call__ x t (at_another_moment yv lv av r w) in
  fst a = fst b
  /\ predictor (snd a) = predictor (snd b)
  /\ (exists news,
        reported (snd a) = reported w ++ news
        /\ reported (snd b) = r ++ news)
  /\ (returned (fst a) = true -> self (snd a) = self (snd b)).
Proof.
  cbv zeta.
  rewrite (call_equation w x t),
    (call_equation (at_another_moment yv lv av r w) x t).
  unfold at_another_moment, with_reported, with_self.
  cbn [predictor self xp n_class compute_accuracy class_weight ignore_label
       reported set_accuracy set_loss set_y].
  destruct (link_call (predictor w) x) as [[y1 | e] p]; cbn.
  2:{ split; [reflexivity |]. split; [reflexivity |].
      split; [exists []; now rewrite !app_nil_r | discriminate]. }
  destruct (F_softmax_cross_entropy y1 t (class_weight (self w))
              (ignore_label (self w))) as [l | e]; cbn.
  2:{ split; [reflexivity |]. split; [reflexivity |].
      split; [exists []; now rewrite !app_nil_r | discriminate]. }
  destruct (compute_accuracy (self w)); cbn.
  2:{ split; [reflexivity |]. split; [reflexivity |].
      split; [exists [loss_report (self w) l]; now split | reflexivity]. }
  destruct (xp_argmax_axis1 (xp (self w)) (data y1)) as [label | e]; cbn.
  2:{ split; [reflexivity |]. split; [reflexivity |].
      split; [exists [loss_report (self w) l]; now split | discriminate]. }
  destruct (eval_semantic_segmentation label (data t) (n_class (self w)))
    as [acc | e]; cbn.
  2:{ split; [reflexivity |]. split; [reflexivity |].
      split; [exists [loss_report (self w) l]; now split | discriminate]. }
  split; [reflexivity |]. split; [reflexivity |].
  split; [| reflexivity].
  exists [loss_report (self w) l; accuracy_report (self w) (xp (self w)) acc].
  split; now rewrite <- app_assoc.
Qed.

(** X5.  The accuracy a call computes does not depend on the two options
    of the loss.  Take the same call with [ignore_label] and
    [class_weight] replaced by any other values: when both calls return,
    they leave the same [y] and the same [accuracy], and what they report
    differs in the value under "loss" only. *)
Theorem accuracy_is_independent_of_loss_options (w : World) il cw x t la lb :
  fst (__call__ x t w) = Returns la ->
  fst (__call__ x t (with_loss_options il cw w)) = Returns lb ->
  let a := snd (__call__ x t w) in
  let b := snd (__call__ x t (with_loss_options il cw w)) in
  y (self a) = y (self b)
  /\ accuracy (self a) = accuracy (self b)
  /\ exists rest,
      reported a
      = reported w
        ++ {| values := [("loss", of_loss la)];
              observer := self_id (self w) |} :: rest
      /\ reported b
         = reported w
           ++ {| values := [("loss", of_loss lb)];
                 observer := self_id (self w) |} :: rest.
Proof.
  cbv zeta.
  rewrite (call_equation w x t),
    (call_equation (with_loss_options il cw w) x t).
  unfold with_loss_options, with_self.
  cbn [predictor self xp n_class compute_accuracy class_weight ignore_label
       reported set_class_weight set_ignore_label].
  destruct (link_call (predictor w) x) as [[y1 | e] p]; cbn;
    [| discriminate].
  destruct (F_softmax_cross_entropy y1 t (class_weight (self w))
              (ignore_label (self w))) as [l1 | e]; cbn; [| discriminate].
  destruct (F_softmax_cross_entropy y1 t cw il) as [l2 | e]; cbn;
    [| intros _; discriminate].
  destruct (compute_accuracy (self w)); cbn.
  - destruct (xp_argmax_axis1 (xp (self w)) (data y1)) as [label | e]; cbn;
      [| discriminate].
    destruct (eval_semantic_segmentation label (data t) (n_class (self w)))
      as [acc | e]; cbn; [| discriminate].
    intros Ha Hb. injection Ha as <-. injection Hb as <-.
    split; [reflexivity |]. split; [reflexivity |].
    exists [accuracy_report (self w) (xp (self w)) acc].
    split; now rewrite <- app_assoc.
  - intros Ha Hb. injection Ha as <-. injection Hb as <-.
    split; [reflexivity |]. split; [reflexivity |].
    exists []. now split.
Qed.

(** What a transfer leaves alone: everything reported, and every
    attribute but [xp] and [class_weight]; and [class_weight] stays an
    array or stays [None]. *)
Lemma to_cpu_frame (w : World) :
  let w' := snd (to_cpu w) in
  reported w' = reported w
  /\ self w'
     = set_class_weight (class_weight (self w'))
         (set_xp (xp (self w')) (self w))
  /\ (class_weight (self w') = None <-> class_weight (self w) = None).
Proof.
  cbv zeta. rewrite to_cpu_equation.
  destruct (chain_to_cpu (xp (self w)) (predictor w)) as [m p]. cbn.
  destruct (class_weight (self w)) as [a |] eqn:Hw; cbn.
  - repeat split; discriminate.
  - rewrite Hw. split; [reflexivity |]. split; [| tauto].
    destruct w as [c p0 r0]; destruct c; cbn in *. now subst.
Qed.

Lemma to_gpu_frame d (w : World) :
  let w' := snd (to_gpu d w) in
  reported w' = reported w
  /\ self w'
     = set_class_weight (class_weight (self w'))
         (set_xp (xp (self w')) (self w))
  /\ (class_weight (self w') = None <-> class_weight (self w) = None).
Proof.
  cbv zeta. rewrite to_gpu_equation.
  destruct (chain_to_gpu (xp (self w)) (predictor w) d) as [[u | e] [m p]];
    cbn.
  - destruct (class_weight (self w)) as [a |] eqn:Hw; cbn.
    + destruct (cuda_to_gpu a d) as [a' | e]; cbn.
      * repeat split; discriminate.
      * rewrite Hw. split; [reflexivity |].
        split; [| split; discriminate].
        destruct w as [c p0 r0]; destruct c; cbn in *. now subst.
    + rewrite Hw. split; [reflexivity |]. split; [| tauto].
      destruct w as [c p0 r0]; destruct c; cbn in *. now subst.
  - split; [reflexivity |]. split; [| tauto].
    destruct w as [c p0 r0]; destruct c; reflexivity.
Qed.

(** X6.  [to_cpu] and [to_gpu] report nothing and assign no attribute but
    [xp] and [class_weight]: [n_class], [ignore_label],
    [compute_accuracy] and the results of the last call stay; and a
    transfer never turns class weights into [None] or [None] into
    weights. *)
Theorem transfers_touch_only_device_state (w : World) d :
  (reported (snd (to_cpu w)) = reported w
   /\ self (snd (to_cpu w))
      = set_class_weight (class_weight (self (snd (to_cpu w))))
          (set_xp (xp (self (snd (to_cpu w)))) (self w))
   /\ (class_weight (self (snd (to_cpu w))) = None
       <-> class_weight (self w) = None))
  /\ (reported (snd (to_gpu d w)) = reported w
      /\ self (snd (to_gpu d w))
         = set_class_weight (class_weight (self (snd (to_gpu d w))))
             (set_xp (xp (self (snd (to_gpu d w)))) (self w))
      /\ (class_weight (self (snd (to_gpu d w))) = None
          <-> class_weight (self w) = None)).
Proof. split; [apply to_cpu_frame | apply to_gpu_frame]. Qed.

(** X7.  [to_gpu] on an instance with class weights [a].  If it raises,
    the exception is the chain's or [cuda.to_gpu]'s and [class_weight] is
    still [a]; if it returns, [class_weight] is what [cuda.to_gpu]
    returned.  The transfer is not atomic: when the chain was moved and
    [cuda.to_gpu] then raises, the predictor and [xp] are the moved ones
    while the weights are where they were. *)
Theorem to_gpu_failure_keeps_class_weight (w : World) d a :
  class_weight (self w) = Some a ->
  let r := fst (to_gpu d w) in
  let w' := snd (to_gpu d w) in
  (forall e, r = Raises e ->
     class_weight (self w') = Some a
     /\ ((exists mp, chain_to_gpu (xp (self w)) (predictor w) d
                     = (Raises e, mp))
         \/ cuda_to_gpu a d = Raises e))
  /\ (r = Returns tt ->
      exists a', cuda_to_gpu a d = Returns a'
                 /\ class_weight (self w') = Some a')
  /\ (forall u m p e,
        chain_to_gpu (xp (self w)) (predictor w) d = (Returns u, (m, p)) ->
        cuda_to_gpu a d = Raises e ->
        r = Raises e /\ xp (self w') = m /\ predictor w' = p
        /\ class_weight (self w') = Some a).
Proof.
  intros Hw. cbv zeta. rewrite to_gpu_equation, Hw.
  destruct (chain_to_gpu (xp (self w)) (predictor w) d) as [[u | e] [m p]];
    cbn.
  - destruct (cuda_to_gpu a d) as [a' | e] eqn:Ha; cbn.
    + split; [discriminate |]. split; [eauto |].
      intros u0 m0 p0 e0 _ H. discriminate H.
    + split.
      { intros e0 H. injection H as <-. split; [exact Hw | now right]. }
      split; [discriminate |].
      intros u0 m0 p0 e0 H1 H2. injection H1 as <- <- <-.
      injection H2 as <-. now repeat split.
  - split.
    { intros e0 H. injection H as <-. split; [exact Hw | left; eauto]. }
    split; [discriminate |].
    intros u0 m0 p0 e0 H. discriminate H.
Qed.

(** X8.  After [to_cpu], a call works on what was transferred: the
    predictor it runs is the moved one, and the class weights it hands to
    the loss kernel are [cuda.to_cpu] of the stored ones. *)
Theorem call_after_to_cpu_uses_moved_weights (w : World) a m p x t y1 p' l :
  class_weight (self w) = Some a ->
  chain_to_cpu (xp (self w)) (predictor w) = (m, p) ->
  link_call p x = (Returns y1, p') ->
  F_softmax_cross_entropy y1 t (Some (cuda_to_cpu a)) (ignore_label (self w))
  = Returns l ->
  let w' := snd (__call__ x t (snd (to_cpu w))) in
  y (self w') = Some y1
  /\ loss (self w') = Some l
  /\ class_weight (self w') = Some (cuda_to_cpu a)
  /\ xp (self w') = m.
Proof.
  intros Hw Hc Hp Hl. cbv zeta.
  rewrite (call_equation (snd (to_cpu w)) x t).
  rewrite to_cpu_equation, Hc, Hw. cbn. rewrite Hp. cbn. rewrite Hl.
  destruct (compute_accuracy (self w)); cbn; [| now repeat split].
  destruct (xp_argmax_axis1 m (data y1)) as [label | e]; cbn;
    [| now repeat split].
  destruct (eval_semantic_segmentation label (data t) (n_class (self w)));
    cbn; now repeat split.
Qed.

(** What one step leaves alone. *)
Lemma call_extends_reports (w : World) x t :
  exists news,
    reported (snd (__call__ x t w)) = reported w ++ news
    /\ observed_by (self w) news.
Proof.
  call_paths w x t;
    try (exists [loss_report (self w) l];
         split; [reflexivity | repeat constructor]);
    try (exists []; split; [now rewrite app_nil_r | constructor]).
  exists [loss_report (self w) l; accuracy_report (self w) (xp (self w)) acc].
  split; [now rewrite <- app_assoc | repeat constructor].
Qed.

Lemma step_keeps_options (w w' : World) :
  step w w' ->
  self_id (self w') = self_id (self w)
  /\ ignore_label (self w') = ignore_label (self w)
  /\ compute_accuracy (self w') = compute_accuracy (self w)
  /\ (class_weight (self w') = None <-> class_weight (self w) = None)
  /\ exists news,
      reported w' = reported w ++ news /\ observed_by (self w) news.
Proof.
  destruct 1.
  - pose proof (call_keeps_configuration w x t) as H.
    unfold configuration in H. injection H as H1 _ _ H4 H5 H6.
    rewrite H1, H4, H5, H6. repeat (split; [tauto |]).
    apply call_extends_reports.
  - destruct (to_cpu_frame w) as (Hr & Hs & Hw). cbv zeta in *.
    rewrite Hs at 1 2 3. cbn. repeat (split; [tauto |]).
    exists []. split; [now rewrite app_nil_r | constructor].
  - destruct (to_gpu_frame d w) as (Hr & Hs & Hw). cbv zeta in *.
    rewrite Hs at 1 2 3. cbn. repeat (split; [tauto |]).
    exists []. split; [now rewrite app_nil_r | constructor].
  - cbn. repeat (split; [tauto |]).
    exists []. split; [now rewrite app_nil_r | constructor].
Qed.

(** X9.  Through any sequence of calls, device transfers and changes made
    to the predictor, the instance keeps its identity, its
    [ignore_label] and its [compute_accuracy]; its [class_weight] is
    [None] exactly if it was at the start; and what was reported at the
    start is still there, followed only by reports that name this instance
    as observer. *)
Theorem reachable_keeps_options (w0 w : World) :
  reachable w0 w ->
  self_id (self w) = self_id (self w0)
  /\ ignore_label (self w) = ignore_label (self w0)
  /\ compute_accuracy (self w) = compute_accuracy (self w0)
  /\ (class_weight (self w) = None <-> class_weight (self w0) = None)
  /\ exists news,
      reported w = reported w0 ++ news /\ observed_by (self w0) news.
Proof.
  induction 1 as [| w w' _ IH Hs].
  - repeat (split; [tauto |]).
    exists []. split; [now rewrite app_nil_r | constructor].
  - destruct IH as (I1 & I2 & I3 & I4 & news & I5 & I6).
    destruct (step_keeps_options Hs) as (S1 & S2 & S3 & S4 & more & S5 & S6).
    split; [congruence |]. split; [congruence |]. split; [congruence |].
    split; [tauto |].
    exists (news ++ more). split.
    + rewrite S5, I5. now rewrite app_assoc.
    + unfold observed_by in *. rewrite I1 in S6.
      apply Forall_app. now split.
Qed.

(** X11.  What a call that raises leaves behind.  It was stopped before
    the loss was stored -- then [loss] and [accuracy] are those of the
    earlier calls and nothing was reported; or the reporter refused the
    instance at line 71 -- then the loss is stored, [accuracy] is that of
    the earlier calls and nothing was reported; or it was stopped in the
    accuracy step -- then the loss was stored and reported alone and
    [accuracy] is [None].  A call that raises never leaves a new accuracy
    tuple and never reports an accuracy key. *)
Theorem call_that_raises_leaves_no_accuracy (accepted : bool)
    (w : World) x t e :
  fst (call_under accepted x t w) = Raises e ->
  let w' := snd (call_under accepted x t w) in
  (loss (self w') = loss (self w)
   /\ accuracy (self w') = accuracy (self w)
   /\ reported w' = reported w)
  \/ (exists l,
        accepted = false
        /\ loss (self w') = Some l
        /\ accuracy (self w') = accuracy (self w)
        /\ reported w' = reported w)
  \/ (exists l,
        accepted = true
        /\ loss (self w') = Some l
        /\ accuracy (self w') = Some None
        /\ reported w'
           = reported w
             ++ [{| values := [("loss", of_loss l)];
                    observer := self_id (self w) |}]).
Proof.
  cbv zeta. destruct accepted.
  - rewrite call_under_accepted.
    call_paths w x t; intros H; try discriminate H.
    + right; right. exists l. now repeat split.
    + right; right. exists l. now repeat split.
    + left. now repeat split.
    + left. now repeat split.
  - rewrite call_under_refused.
    destruct (link_call (predictor w) x) as [[y1 | e0] p]; cbn.
    + destruct (F_softmax_cross_entropy y1 t (class_weight (self w))
                  (ignore_label (self w))) as [l | e0]; cbn; intros _.
      * right; left. exists l. now repeat split.
      * left. now repeat split.
    + intros _. left. now repeat split.
Qed.

End Further.

(* ------------------------------------------------------------------ *)
(** * The further properties at concrete inputs *)

(** [call_raises_only_what_collaborators_raise] under a reporter that
    refuses the instance: the exception is the reporter's. *)
Lemma call_raises_only_what_collaborators_raise_witness :
  fst (call_under false x2 t2 w2) = Raises unregistered_observer
  /\ ((exists p, link_call (predictor w2) x2
                 = (Raises unregistered_observer, p))
      \/ exists y1 p,
          link_call (predictor w2) x2 = (Returns y1, p)
          /\ (F_softmax_cross_entropy y1 t2 (class_weight (self w2))
                (ignore_label (self w2)) = Raises unregistered_observer
              \/ exists l,
                  F_softmax_cross_entropy y1 t2 (class_weight (self w2))
                    (ignore_label (self w2)) = Returns l
                  /\ (false = false
                         /\ unregistered_observer = unregistered_observer
                      \/ false = true
                         /\ compute_accuracy (self w2) = true
                         /\ (xp_argmax_axis1 (xp (self w2)) (data y1)
                             = Raises unregistered_observer
                             \/ exists label,
                                 xp_argmax_axis1 (xp (self w2)) (data y1)
                                 = Returns label
                                 /\ eval_semantic_segmentation label
                                      (data t2) (n_class (self w2))
                                    = Raises unregistered_observer)))).
Proof.
  split; [reflexivity |].
  exact (@call_raises_only_what_collaborators_raise host false w2 x2 t2
           unregistered_observer eq_refl).
Defined.

(** [call_return_leaves_results] on [w2]. *)
Lemma call_return_leaves_results_witness :
  fst (__call__ x2 t2 w2) = Returns loss2
  /\ loss (self (snd (__call__ x2 t2 w2))) = Some loss2
  /\ exists y1,
      link_call (predictor w2) x2
      = (Returns y1, predictor (snd (__call__ x2 t2 w2)))
      /\ y (self (snd (__call__ x2 t2 w2))) = Some y1
      /\ F_softmax_cross_entropy y1 t2 (class_weight (self w2))
           (ignore_label (self w2)) = Returns loss2
      /\ exists label acc,
          xp_argmax_axis1 (xp (self w2)) (data y1) = Returns label
          /\ eval_semantic_segmentation label (data t2) (n_class (self w2))
             = Returns acc
          /\ accuracy (self (snd (__call__ x2 t2 w2))) = Some (Some acc).
Proof.
  split; [reflexivity |].
  exact (@call_return_leaves_results host w2 x2 t2 loss2 eq_refl).
Defined.

(** [accuracy_is_independent_of_loss_options] on [w2], with label 0 put
    in place of the default ignore label. *)
Lemma accuracy_is_independent_of_loss_options_witness :
  fst (__call__ x2 t2 w2) = Returns loss2
  /\ fst (__call__ x2 t2 (with_loss_options 0 None w2)) = Returns loss2_ignore0
  /\ y (self (snd (__call__ x2 t2 w2)))
     = y (self (snd (__call__ x2 t2 (with_loss_options 0 None w2))))
  /\ accuracy (self (snd (__call__ x2 t2 w2)))
     = accuracy (self (snd (__call__ x2 t2 (with_loss_options 0 None w2))))
  /\ exists rest,
      reported (snd (__call__ x2 t2 w2))
      = reported w2
        ++ {| values := [("loss", of_loss loss2)];
              observer := self_id (self w2) |} :: rest
      /\ reported (snd (__call__ x2 t2 (with_loss_options 0 None w2)))
         = reported w2
           ++ {| values := [("loss", of_loss loss2_ignore0)];
                 observer := self_id (self w2) |} :: rest.
Proof.
  split; [reflexivity |]. split; [reflexivity |].
  exact (@accuracy_is_independent_of_loss_options host w2 0 None x2 t2
           loss2 loss2_ignore0 eq_refl eq_refl).
Defined.

(** [to_gpu_failure_keeps_class_weight] on the host whose device memory
    is exhausted: the chain is moved, the weights stay. *)
Lemma to_gpu_failure_keeps_class_weight_witness :
  class_weight (self w2_crowded) = Some weights2_float32
  /\ @chain_to_gpu crowded (xp (self w2_crowded)) (predictor w2_crowded) None
     = (Returns tt, (cupy, net2))
  /\ @cuda_to_gpu crowded weights2_float32 None = Raises out_of_memory
  /\ fst (to_gpu None w2_crowded) = Raises out_of_memory
  /\ xp (self (snd (to_gpu None w2_crowded))) = cupy
  /\ predictor (snd (to_gpu None w2_crowded)) = net2
  /\ class_weight (self (snd (to_gpu None w2_crowded)))
     = Some weights2_float32.
Proof.
  split; [reflexivity |]. split; [reflexivity |]. split; [reflexivity |].
  exact (proj2 (proj2 (@to_gpu_failure_keeps_class_weight crowded w2_crowded
                         None weights2_float32 eq_refl))
           tt cupy net2 out_of_memory eq_refl eq_refl).
Defined.

(** [call_after_to_cpu_uses_moved_weights] on the instance with class
    weights. *)
Lemma call_after_to_cpu_uses_moved_weights_witness :
  class_weight (self w2_weighted) = Some weights2_float32
  /\ chain_to_cpu (xp (self w2_weighted)) (predictor w2_weighted)
     = (numpy, net2)
  /\ link_call net2 x2 = (Returns x2, net2)
  /\ F_softmax_cross_entropy x2 t2 (Some (cuda_to_cpu weights2_float32))
       (ignore_label (self w2_weighted)) = Returns loss2_weighted
  /\ y (self (snd (__call__ x2 t2 (snd (to_cpu w2_weighted))))) = Some x2
  /\ loss (self (snd (__call__ x2 t2 (snd (to_cpu w2_weighted)))))
     = Some loss2_weighted
  /\ class_weight (self (snd (__call__ x2 t2 (snd (to_cpu w2_weighted)))))
     = Some (cuda_to_cpu weights2_float32)
  /\ xp (self (snd (__call__ x2 t2 (snd (to_cpu w2_weighted))))) = numpy.
Proof.
  do 4 (split; [reflexivity |]).
  exact (@call_after_to_cpu_uses_moved_weights host w2_weighted
           weights2_float32 numpy net2 x2 t2 x2 net2 loss2_weighted
           eq_refl eq_refl eq_refl eq_refl).
Defined.

(** [reachable_keeps_options] after a change of the predictor and a
    call. *)
Lemma reachable_keeps_options_witness :
  reachable w2 w2_later
  /\ reported w2_later <> reported w2
  /\ self_id (self w2_later) = self_id (self w2)
  /\ ignore_label (self w2_later) = ignore_label (self w2)
  /\ compute_accuracy (self w2_later) = compute_accuracy (self w2)
  /\ (class_weight (self w2_later) = None <-> class_weight (self w2) = None)
  /\ exists news,
      reported w2_later = reported w2 ++ news
      /\ observed_by (self w2) news.
Proof.
  assert (Hr : reachable w2 w2_later).
  { apply reach_step with (w := w2_relabelled).
    - apply reach_step with (w := w2); [apply reach_here |].
      exact (step_predictor net2_relabelled w2).
    - exact (step_call x2 t2 w2_relabelled). }
  split; [exact Hr |]. split; [discriminate |].
  exact (@reachable_keeps_options host w2 w2_later Hr).
Defined.

(** [call_that_raises_leaves_no_accuracy] on a world whose earlier call
    stored a loss and an accuracy, under a reporter that refuses the
    instance: the new loss is stored next to the accuracy of the earlier
    call, and nothing is reported. *)
Lemma call_that_raises_leaves_no_accuracy_witness :
  fst (call_under false x_pair t_pair w2_later) = Raises unregistered_observer
  /\ loss (self w2_later) = Some loss2
  /\ accuracy (self w2_later) = Some (Some acc2)
  /\ loss (self (snd (call_under false x_pair t_pair w2_later)))
     = Some loss_pair
  /\ ((loss (self (snd (call_under false x_pair t_pair w2_later)))
       = loss (self w2_later)
       /\ accuracy (self (snd (call_under false x_pair t_pair w2_later)))
          = accuracy (self w2_later)
       /\ reported (snd (call_under false x_pair t_pair w2_later))
          = reported w2_later)
      \/ (exists l,
            false = false
            /\ loss (self (snd (call_under false x_pair t_pair w2_later)))
               = Some l
            /\ accuracy (self (snd (call_under false x_pair t_pair w2_later)))
               = accuracy (self w2_later)
            /\ reported (snd (call_under false x_pair t_pair w2_later))
               = reported w2_later)
      \/ (exists l,
            false = true
            /\ loss (self (snd (call_under false x_pair t_pair w2_later)))
               = Some l
            /\ accuracy (self (snd (call_under false x_pair t_pair w2_later)))
               = Some None
            /\ reported (snd (call_under false x_pair t_pair w2_later))
               = reported w2_later
                 ++ [{| values := [("loss", of_loss l)];
                        observer := self_id (self w2_later) |}])).
Proof.
  do 4 (split; [reflexivity |]).
  exact (@call_that_raises_leaves_no_accuracy host false w2_later x_pair
           t_pair unregistered_observer eq_refl).
Defined.
